(** * EverMemOS persistence utilities: a shallow embedding

    The development follows the four source files of the repository:

    - [common_utils/datetime_utils.py]            -> [Module DatetimeUtils]
    - [core/oxm/mongo/document_base_with_soft_delete.py] -> [Module SoftDelete]
    - [infra_layer/adapters/out/event/memory_request_log_mongo_listener.py]
                                                  -> [Module RequestLogListener]
    - [service/memcell_delete_service.py]         -> [Module DeleteService]

    Python values, exceptions, coroutines and the pieces of the standard
    library the code calls into live in [Module Py].  Library behaviour that the
    repository does not define (the time-zone database, string hashing,
    ISO parsing, JSON decoding, URL splitting) is collected in interface
    classes so that every statement holds for any implementation of them. *)

From Stdlib Require Import ZArith Floats Ascii.
From stdpp Require Import gmap strings list.

Set Default Proof Using "Type".
Local Open Scope Z_scope.

(* ===================================================================== *)
(** * Python values, exceptions and effects                              *)
(* ===================================================================== *)

Module Py.

(** Exception classes that the modelled code raises or catches.  All of
    them derive from [Exception], which is what every [except Exception]
    handler of the repository catches.  An exception that derives from
    [BaseException] only is not a value of this type: see [raised]. *)
Inductive exn :=
| ValueError
| TypeError
| OverflowError
| AttributeError
| JSONDecodeError
| OtherError (name : string).

#[global] Instance exn_eq_dec : EqDecision exn.
Proof. solve_decision. Defined.

(** A computation that either raises or returns. *)
Definition result (A : Type) : Type := exn + A.
Definition Ok {E A} (a : A) : E + A := inr a.
Definition Raise {E A} (e : E) : E + A := inl e.

Definition rbind {A B} (m : result A) (k : A -> result B) : result B :=
  match m with
  | inl e => inl e
  | inr a => k a
  end.

#[global] Instance result_ret : MRet result := fun _ a => Ok a.
#[global] Instance result_bind : MBind result := fun _ _ k m => rbind m k.

(** State and exceptions together, for the synchronous functions: a
    raised exception keeps the state reached so far, as side effects
    performed before a [raise] do. *)
Definition M (St A : Type) : Type := St -> result A * St.

Definition ret {St A} (a : A) : M St A := fun s => (Ok a, s).
Definition raise {St A} (e : exn) : M St A := fun s => (Raise e, s).
Definition bind {St A B} (m : M St A) (k : A -> M St B) : M St B :=
  fun s => match m s with
           | (inl e, s') => (inl e, s')
           | (inr a, s') => k a s'
           end.
(** [try: m except Exception as e: h e] around synchronous code, where
    everything raised is a value of [exn]. *)
Definition try_except {St A} (m : M St A) (h : exn -> M St A) : M St A :=
  fun s => match m s with
           | (inl e, s') => h e s'
           | (inr a, s') => (inr a, s')
           end.
Definition modify {St} (f : St -> St) : M St unit := fun s => (Ok tt, f s).
Definition gets {St A} (f : St -> A) : M St A := fun s => (Ok (f s), s).
Definition lift {St A} (r : result A) : M St A := fun s => (r, s).

#[global] Instance M_ret St : MRet (M St) := fun _ a => ret a.
#[global] Instance M_bind St : MBind (M St) := fun _ _ k m => bind m k.

(** ** Coroutines *)

(** What can leave an [await]: an exception derived from [Exception], or
    [asyncio.CancelledError], which derives from [BaseException] only and
    is thrown into the coroutine at the [await] when its task is
    cancelled. *)
Inductive raised :=
| Exc (e : exn)
| CancelledError.

#[global] Instance raised_eq_dec : EqDecision raised.
Proof. solve_decision. Defined.

(** The outcome of a coroutine, and a coroutine over a state. *)
Definition outcome (A : Type) : Type := raised + A.
Definition Async (St A : Type) : Type := St -> outcome A * St.

Definition async_ret {St A} (a : A) : Async St A := fun s => (Ok a, s).
Definition async_bind {St A B} (m : Async St A) (k : A -> Async St B) : Async St B :=
  fun s => match m s with
           | (inl x, s') => (inl x, s')
           | (inr a, s') => k a s'
           end.
Definition async_modify {St} (f : St -> St) : Async St unit := fun s => (Ok tt, f s).

(** A synchronous call made by a coroutine: what it raises is a value of
    [exn]. *)
Definition sync {St A} (r : result A) : Async St A :=
  fun s => (match r with inl e => inl (Exc e) | inr a => inr a end, s).

Definition async_raise {St A} (x : raised) : Async St A := fun s => (Raise x, s).

(** A bare [raise] in the handler of [except Exception as e]. *)
Definition reraise {St A} (e : exn) : Async St A := async_raise (Exc e).

(** [try: m except Exception as e: h e] in a coroutine: the handler is
    entered for an exception derived from [Exception]; [CancelledError]
    passes through it. *)
Definition try_except_Exception {St A} (m : Async St A) (h : exn -> Async St A)
    : Async St A :=
  fun s => match m s with
           | (inl (Exc e), s') => h e s'
           | (inl CancelledError, s') => (inl CancelledError, s')
           | (inr a, s') => (inr a, s')
           end.

#[global] Instance Async_ret St : MRet (Async St) := fun _ a => async_ret a.
#[global] Instance Async_bind St : MBind (Async St) := fun _ _ k m => async_bind m k.

(** ** Log records of [core.observation.logger] *)
Inductive level := DEBUG | INFO | WARNING | ERROR.
#[global] Instance level_eq_dec : EqDecision level.
Proof. solve_decision. Defined.

(** A record keeps its level, the format string of the call and, for an
    error report, the exception passed as argument. *)
Record log_record := LogRecord {
  log_level : level;
  log_format : string;
  log_exc : option exn
}.

(** ** Truthiness of the values used in [if x:] and [x or y] *)
Definition truthy_str (s : string) : bool := negb (bool_decide (s = "")).

(** [a or b] on optional strings: [None] and [""] are both falsy. *)
Definition or_else (a b : option string) : option string :=
  match a with
  | Some s => if truthy_str s then a else b
  | None => b
  end.

(** ** [datetime.datetime] and [tzinfo] *)

(** Time-zone objects: a [ZoneInfo] named by its key, or the fixed offset
    ([datetime.timezone]) that [fromisoformat] attaches.  Offsets and
    wall-clock readings are counted in microseconds. *)
Inductive tzinfo_t :=
| ZoneInfo (key : string)
| FixedOffset (offset : Z).

#[global] Instance tzinfo_eq_dec : EqDecision tzinfo_t.
Proof. solve_decision. Defined.

(** [wall] is the calendar reading (year .. microsecond) counted in
    microseconds from 1970-01-01T00:00:00 of the same calendar; a naive
    datetime has [tzinfo = None]. *)
Record datetime := mk_datetime {
  wall : Z;
  tzinfo : option tzinfo_t
}.

#[global] Instance datetime_eq_dec : EqDecision datetime.
Proof. solve_decision. Defined.

(** [dt.replace(tzinfo=tz)]: same calendar reading, new zone. *)
Definition replace_tzinfo (dt : datetime) (tz : tzinfo_t) : datetime :=
  {| wall := wall dt; tzinfo := Some tz |}.

(** ** Numbers *)

(** An [int] is unbounded, a [float] is a binary64 value. *)
Inductive num :=
| NInt (z : Z)
| NFloat (f : float).

(** [float(z)] of an [int]: rounded to nearest, [OverflowError] beyond the
    largest finite value. *)
Definition float_of_int (z : Z) : result float :=
  let f := SF2Prim (binary_normalize prec emax z 0 false) in
  match Prim2SF f with
  | S754_infinity _ => Raise OverflowError
  | _ => Ok f
  end.

(** [int(f)] of a [float]: truncation toward zero. *)
Definition int_of_float (f : float) : result Z :=
  match Prim2SF f with
  | S754_zero _ => Ok 0
  | S754_nan => Raise ValueError
  | S754_infinity _ => Raise OverflowError
  | S754_finite s m e =>
      let v := Z.shiftl (Z.pos m) e in
      Ok (if s then - v else v)
  end.

(** [x <= 0]; an [int] is compared exactly. *)
Definition num_le_zero (n : num) : bool :=
  match n with
  | NInt z => bool_decide (z <= 0)
  | NFloat f => PrimFloat.leb f 0
  end.

(** [x >= 1e12] *)
Definition num_ge_1e12 (n : num) : bool :=
  match n with
  | NInt z => bool_decide (10 ^ 12 <= z)
  | NFloat f => PrimFloat.leb 1e12 f
  end.

(** [int(x)] *)
Definition num_int (n : num) : result Z :=
  match n with
  | NInt z => Ok z
  | NFloat f => int_of_float f
  end.

(** [x * 1000] *)
Definition num_mul_1000 (n : num) : num :=
  match n with
  | NInt z => NInt (z * 1000)
  | NFloat f => NFloat (PrimFloat.mul f 1000)
  end.

(** [x / 1000.0] *)
Definition num_div_1000 (n : num) : result float :=
  match n with
  | NInt z => f ← float_of_int z; Ok (PrimFloat.div f 1000)
  | NFloat f => Ok (PrimFloat.div f 1000)
  end.

(** ** Values handed to the converters *)

(** [VSub cls v] is an instance of a user class [cls] derived from the type
    of [v] ([int], [float], [str] or [datetime]) that behaves as [v] does;
    [VObject cls s] is any other object, [s] being what [str()] gives. *)
Inductive pyval :=
| VNone
| VBool (b : bool)
| VInt (z : Z)
| VFloat (f : float)
| VStr (s : string)
| VDatetime (d : datetime)
| VSub (cls : string) (v : pyval)
| VObject (cls : string) (str_ : result string).

Inductive pytype :=
| TNoneType | TBool | TInt | TFloat | TStr | TDatetime
| TUser (cls : string).

#[global] Instance pytype_eq_dec : EqDecision pytype.
Proof. solve_decision. Defined.

(** [type(v)] *)
Definition type_of (v : pyval) : pytype :=
  match v with
  | VNone => TNoneType
  | VBool _ => TBool
  | VInt _ => TInt
  | VFloat _ => TFloat
  | VStr _ => TStr
  | VDatetime _ => TDatetime
  | VSub cls _ => TUser cls
  | VObject cls _ => TUser cls
  end.

(** [isinstance(v, (int, float))]: [bool] derives from [int]. *)
Fixpoint as_number (v : pyval) : option num :=
  match v with
  | VBool b => Some (NInt (if b then 1 else 0))
  | VInt z => Some (NInt z)
  | VFloat f => Some (NFloat f)
  | VSub _ v' => as_number v'
  | _ => None
  end.

(** [isinstance(v, str)] *)
Fixpoint as_str (v : pyval) : option string :=
  match v with
  | VStr s => Some s
  | VSub _ v' => as_str v'
  | _ => None
  end.

(** [isinstance(v, datetime.datetime)] *)
Fixpoint as_datetime (v : pyval) : option datetime :=
  match v with
  | VDatetime d => Some d
  | VSub _ v' => as_datetime v'
  | _ => None
  end.

(** [s.endswith("Z")] and [s.replace("Z", "+00:00")] *)
Fixpoint endswith_Z (s : string) : bool :=
  match s with
  | EmptyString => false
  | String c EmptyString => bool_decide (c = "Z"%char)
  | String _ r => endswith_Z r
  end.

Fixpoint replace_Z (s : string) : string :=
  match s with
  | EmptyString => EmptyString
  | String c r =>
      if bool_decide (c = "Z"%char) then "+00:00" +:+ replace_Z r
      else String c (replace_Z r)
  end.

Definition normalize_utc_suffix (s : string) : string :=
  if endswith_Z s then replace_Z s else s.

(** The part of the interpreter and of the standard library on which the
    repository relies without defining it. *)
Class Runtime := {
  (** [os.getenv("TZ", "Asia/Shanghai")] when [datetime_utils] is imported *)
  TZ : string;
  (** offset of a [ZoneInfo] in force at a UTC instant ([tz.fromutc]) *)
  zone_offset_at_utc : string -> Z -> Z;
  (** offset of a [ZoneInfo] for a local calendar reading ([tz.utcoffset]) *)
  zone_offset_at_wall : string -> Z -> Z;
  (** offset of the local zone that the platform's time functions give
      for a naive calendar reading, or the exception they raise
      ([local_timezone_from_local]) *)
  local_timezone : Z -> result Z;
  (** [hash(s)] of a [str] *)
  py_hash : string -> Z;
  (** [int(dt.timestamp() * 1000000)] of an aware datetime, evaluated in
      binary floating point by the interpreter *)
  timestamp_micros : datetime -> Z;
  (** [int(dt.timestamp() * 1000)] *)
  timestamp_millis : datetime -> result Z;
  (** [datetime.fromisoformat] *)
  fromisoformat : string -> result datetime;
  (** [datetime.isoformat] *)
  isoformat : datetime -> string;
  (** [float(s)] of a [str] *)
  float_of_str : string -> result float;
  (** [datetime.fromtimestamp(t, tz=...)] *)
  fromtimestamp : num -> tzinfo_t -> result datetime;
  (** [str(x)] of a number and of a datetime *)
  str_of_num : num -> string;
  str_of_datetime : datetime -> string
}.

Section WithRuntime.
Context `{RT : Runtime}.

(** [get_timezone()] / the module constant [timezone] *)
Definition get_timezone : tzinfo_t := ZoneInfo TZ.

Definition utcoffset (tz : tzinfo_t) (w : Z) : Z :=
  match tz with
  | ZoneInfo k => zone_offset_at_wall k w
  | FixedOffset o => o
  end.

Definition fromutc (tz : tzinfo_t) (utc : Z) : Z :=
  match tz with
  | ZoneInfo k => utc + zone_offset_at_utc k utc
  | FixedOffset o => utc + o
  end.

(** Calendar range of [datetime]: 0001-01-01T00:00:00 ..
    9999-12-31T23:59:59.999999. *)
Definition MIN_WALL : Z := -62135596800000000.
Definition MAX_WALL : Z := 253402300799999999.
Definition in_range (w : Z) : bool :=
  bool_decide (MIN_WALL <= w) && bool_decide (w <= MAX_WALL).

(** [tz is mytz]: zone objects are cached per key, fixed offsets are
    fresh objects. *)
Definition same_zone_object (a b : tzinfo_t) : bool :=
  match a, b with
  | ZoneInfo k, ZoneInfo k' => bool_decide (k = k')
  | _, _ => false
  end.

(** [dt.astimezone(tz)], as [datetime_astimezone] does it: for a naive
    receiver the platform supplies the local zone as a fresh fixed-offset
    object, or raises; a receiver carrying the target zone object is
    returned as it is; anything else is converted to UTC and handed to
    [tz.fromutc], and each of the two steps raises [OverflowError] when
    its result leaves the calendar range. *)
Definition astimezone (dt : datetime) (tz : tzinfo_t) : result datetime :=
  mytz ← match tzinfo dt with
         | Some z => Ok z
         | None => o ← local_timezone (wall dt); Ok (FixedOffset o)
         end;
  if same_zone_object tz mytz then Ok dt
  else
    let utc := wall dt - utcoffset mytz (wall dt) in
    if negb (in_range utc) then Raise OverflowError
    else
      let w := fromutc tz utc in
      if in_range w then Ok {| wall := w; tzinfo := Some tz |}
      else Raise OverflowError.

(** [datetime.datetime.now(tz=timezone)] at a UTC clock reading *)
Definition now_at (clock : Z) : datetime :=
  {| wall := fromutc get_timezone clock; tzinfo := Some get_timezone |}.
End WithRuntime.

End Py.

(* ===================================================================== *)
(** * core/oxm/mongo/document_base_with_soft_delete.py                   *)
(* ===================================================================== *)

Module SoftDelete.
Import Py.

(** ** Stored values *)

(** Values of a MongoDB document or query: scalars, arrays and embedded
    documents (an operator expression such as [{"$ne": None}] is
    [BDoc [("$ne", BNull)]]). *)
#[warnings="-register-all"]
Inductive bson :=
| BNull
| BBool (b : bool)
| BInt (z : Z)
| BStr (s : string)
| BDate (d : datetime)
| BOid (o : string)
| BArr (l : list bson)
| BDoc (l : list (string * bson)).

Fixpoint bson_eq_dec (a b : bson) : {a = b} + {a <> b}.
Proof.
  decide equality; try (apply (decide_rel (=))).
  - revert l0. induction l as [|x l IH]; intros [|y l'];
      try (by right); try (by left).
    destruct (bson_eq_dec x y); [|right; congruence].
    destruct (IH l'); [left|right]; congruence.
  - revert l0. induction l as [|[k x] l IH]; intros [|[k' y] l'];
      try (by right); try (by left).
    destruct (decide (k = k')); [|right; congruence].
    destruct (bson_eq_dec x y); [|right; congruence].
    destruct (IH l'); [left|right]; congruence.
Defined.
#[global] Instance bson_eqdec : EqDecision bson := bson_eq_dec.

(** A stored document and a query filter are both maps from field names
    to values ([Mapping[str, Any]]). *)
Abbreviation bdoc := (gmap string bson).
Abbreviation query := (gmap string bson).

Definition bson_of_time (t : option datetime) : bson := from_option BDate BNull t.
Definition bson_of_str (s : option string) : bson := from_option BStr BNull s.
Definition bson_of_id (i : option string) : bson := from_option BOid BNull i.

(** ** The model object *)

(** An instance of a document class: the primary key inherited from the
    mapping layer, the three soft-delete fields with their defaults, and
    the fields of the concrete subclass. *)
Record Document := mkDocument {
  doc_id : option string;
  deleted_at : option datetime;
  deleted_by : option string;
  deleted_id : Z;
  fields : gmap string bson
}.

#[global] Instance Document_eq_dec : EqDecision Document.
Proof. solve_decision. Defined.

(** Field defaults of the class body. *)
Definition new_document (i : option string) (fs : gmap string bson) : Document :=
  {| doc_id := i; deleted_at := None; deleted_by := None; deleted_id := 0; fields := fs |}.

Definition is_deleted (self : Document) : bool :=
  negb (bool_decide (deleted_at self = None)).

(** ** Query filters as Python objects *)

(** [apply_soft_delete_filter] receives a reference to the caller's
    mapping, so the dictionaries live in a heap of objects. *)
Abbreviation heap := (gmap positive (gmap string bson)).

(** A new dict object holding [d]. *)
Definition new_dict (d : query) (h : heap) : positive * heap :=
  let l := fresh (dom h) in (l, <[l := d]> h).

(** [result_filter[k] = v] *)
Definition dict_setitem (l : positive) (k : string) (v : bson) (h : heap) : heap :=
  alter (insert k v) l h.

Definition dict_contents (l : positive) (h : heap) : query := default ∅ (h !! l).

Definition apply_soft_delete_filter
    (filter_query : option positive) (include_deleted : bool) (h : heap)
    : positive * heap :=
  let '(result_filter, h1) :=
    match filter_query with
    | None => new_dict ∅ h
    | Some l => new_dict (dict_contents l h) h   (* dict(filter_query) *)
    end in
  if negb include_deleted
     && negb (bool_decide ("deleted_at" ∈ dom (dict_contents result_filter h1)))
  then (result_filter, dict_setitem result_filter "deleted_at" BNull h1)
  else (result_filter, h1).

(** The dictionary that [apply_soft_delete_filter] returns, as a value. *)
Definition soft_delete_filter (q : query) (include_deleted : bool) : query :=
  if negb include_deleted && negb (bool_decide ("deleted_at" ∈ dom q))
  then <["deleted_at" := BNull]> q
  else q.

Definition get_soft_delete_filter (include_deleted : bool) : query :=
  if include_deleted then ∅ else {[ "deleted_at" := BNull ]}.

(** ** The collection behind [get_pymongo_collection()] *)

(** Calls made on the collection.  The second argument of an update is
    the document under ["$set"]. *)
Inductive command :=
| UpdateOne (filter : query) (set_doc : bdoc)
| UpdateMany (filter : query) (set_doc : bdoc)
| DeleteOne (filter : query)
| DeleteMany (filter : query).

Definition is_removal (c : command) : bool :=
  match c with
  | DeleteOne _ | DeleteMany _ => true
  | _ => false
  end.

Record UpdateResult := mkUpdateResult {
  matched_count : nat;
  modified_count : nat
}.

Record world := mkWorld {
  clock : Z;                    (* UTC microseconds read by [datetime.now] *)
  collection : list bdoc;
  calls : list command          (* calls received by the collection, oldest first *)
}.

Section Store.
Context `{RT : Runtime}.

(** How the server decides whether one entry [field: condition] of a
    filter holds for a document.  The entries of a filter are combined
    by conjunction. *)
Variable match_cond : string -> bson -> bdoc -> bool.

Definition matches (q : query) (d : bdoc) : bool :=
  bool_decide (map_Forall (fun k v => match_cond k v d = true) q).

(** ["$set"]: the listed fields are written, the others kept. *)
Definition apply_set (set_doc d : bdoc) : bdoc := set_doc ∪ d.

Fixpoint update_first (q : query) (set_doc : bdoc) (c : list bdoc) : list bdoc :=
  match c with
  | [] => []
  | d :: c' =>
      if matches q d then apply_set set_doc d :: c'
      else d :: update_first q set_doc c'
  end.

Definition update_all (q : query) (set_doc : bdoc) (c : list bdoc) : list bdoc :=
  (fun d => if matches q d then apply_set set_doc d else d) <$> c.

Fixpoint remove_first (q : query) (c : list bdoc) : list bdoc :=
  match c with
  | [] => []
  | d :: c' => if matches q d then c' else d :: remove_first q c'
  end.

Definition remove_all (q : query) (c : list bdoc) : list bdoc :=
  filter (fun d => matches q d = false) c.

Definition exec (cmd : command) (c : list bdoc) : list bdoc :=
  match cmd with
  | UpdateOne q s => update_first q s c
  | UpdateMany q s => update_all q s c
  | DeleteOne q => remove_first q c
  | DeleteMany q => remove_all q c
  end.

Definition call (cmd : command) (w : world) : world :=
  {| clock := clock w;
     collection := exec cmd (collection w);
     calls := calls w ++ [cmd] |}.

Definition count_matching (q : query) (c : list bdoc) : nat :=
  length (filter (fun d => matches q d = true) c).

Definition count_modified (q : query) (s : bdoc) (c : list bdoc) : nat :=
  length (filter (fun d => matches q d = true /\ apply_set s d <> d) c).

(** Relation between a stored document before and after an update call:
    it is kept, or it matched the filter and had ["$set"] applied. *)
Definition updated_by (q : query) (s : bdoc) (d d' : bdoc) : Prop :=
  d' = d \/ (matches q d = true /\ d' = apply_set s d).

Definition get_now_with_timezone (w : world) : datetime := now_at (clock w).

(** ** Instance methods *)

Definition soft_delete_set (now : datetime) (by_ : option string) (did : Z) : bdoc :=
  {[ "deleted_at" := BDate now;
     "deleted_by" := bson_of_str by_;
     "deleted_id" := BInt did ]}.

Definition restore_set : bdoc :=
  {[ "deleted_at" := BNull; "deleted_by" := BNull; "deleted_id" := BInt 0 ]}.

Definition id_filter (self : Document) : query :=
  {[ "_id" := bson_of_id (doc_id self) ]}.

(** [delete] mutates [self] and returns [None] on every path; the object
    after the call is handed back together with the world. *)
Definition delete (self : Document) (deleted_by_ : option string) (w : world)
    : Document * world :=
  if is_deleted self then (self, w)
  else
    let now := get_now_with_timezone w in
    let deleted_id_value :=
      match doc_id self with
      | Some i => Z.abs (py_hash i)       (* abs(hash(str(self.id))) *)
      | None => 0
      end in
    let w' := call (UpdateOne (id_filter self)
                      (soft_delete_set now deleted_by_ deleted_id_value)) w in
    ({| doc_id := doc_id self;
        deleted_at := Some now;
        deleted_by := deleted_by_;
        deleted_id := deleted_id_value;
        fields := fields self |}, w').

Definition restore (self : Document) (w : world) : Document * world :=
  if negb (is_deleted self) then (self, w)
  else
    let w' := call (UpdateOne (id_filter self) restore_set) w in
    ({| doc_id := doc_id self;
        deleted_at := None;
        deleted_by := None;
        deleted_id := 0;
        fields := fields self |}, w').

(** [cls._add_class_id_filter(args, with_children)] of the mapping layer. *)
Variable _add_class_id_filter : list query -> bool -> list query.

(** The [query] of [And] over the find expressions, as the mapping layer
    builds the filter of
    a find query: no expression gives the empty filter, one expression
    stands for itself, several are listed under ["$and"]. *)
Definition and_query (exprs : list query) : query :=
  match exprs with
  | [] => ∅
  | [q] => q
  | _ => {[ "$and" := BArr ((fun q : query => BDoc (map_to_list q)) <$> exprs) ]}
  end.

(** [super().delete(...)]: the mapping layer deletes through
    [self.find_one({"_id": self.id}).delete()], and [find_one] is the one
    this class overrides, so the condition [deleted_at = None] is part of
    the filter that [delete_one] receives. *)
Definition hard_delete (self : Document) (w : world) : Document * world :=
  (self,
   call (DeleteOne (and_query (_add_class_id_filter [id_filter self] false
                               ++ [{[ "deleted_at" := BNull ]}]))) w).

(** ** Class methods *)

(** The filters are handled as values: [soft_delete_filter] is the content
    of the dictionary that [apply_soft_delete_filter] builds. *)
Definition delete_many (filter_query : query) (deleted_by_ : option string) (w : world)
    : UpdateResult * world :=
  let now := get_now_with_timezone w in
  let update_doc := soft_delete_set now deleted_by_ (timestamp_micros now) in
  let final_filter := soft_delete_filter filter_query false in
  ({| matched_count := count_matching final_filter (collection w);
      modified_count := count_modified final_filter update_doc (collection w) |},
   call (UpdateMany final_filter update_doc) w).

Definition restore_many (filter_query : query) (w : world) : UpdateResult * world :=
  let final_filter := soft_delete_filter filter_query true in
  let final_filter :=
    if bool_decide ("deleted_at" ∈ dom final_filter) then final_filter
    else <["deleted_at" := BDoc [("$ne", BNull)]]> final_filter in
  ({| matched_count := count_matching final_filter (collection w);
      modified_count := count_modified final_filter restore_set (collection w) |},
   call (UpdateMany final_filter restore_set) w).

Definition hard_delete_many (filter_query : query) (w : world) : nat * world :=
  (count_matching filter_query (collection w), call (DeleteMany filter_query) w).

End Store.

(** The three names that soft deletion may write. *)
Definition soft_delete_fields : gset string :=
  {[ "deleted_at"; "deleted_by"; "deleted_id" ]}.

(** Calls that reached the collection between two worlds. *)
Definition issued (w w' : world) : list command :=
  drop (length (calls w)) (calls w').

(** Primary keys present in a collection, in storage order. *)
Definition stored_ids (c : list bdoc) : list (option bson) :=
  (fun d : bdoc => d !! "_id") <$> c.

(** A stored document counts as live when ["deleted_at"] is null or absent. *)
Definition doc_live (d : bdoc) : bool :=
  bool_decide (default BNull (d !! "deleted_at") = BNull).

(** The state a model object is created in and restored to. *)
Definition pristine (self : Document) : Prop :=
  deleted_at self = None /\ deleted_by self = None /\ deleted_id self = 0.

(** The discriminator convention on an object and on a stored document:
    whatever is live carries [deleted_id = 0]. *)
Definition sentinel_when_live (self : Document) : Prop :=
  is_deleted self = false -> deleted_id self = 0.

Definition doc_sentinel_when_live (d : bdoc) : Prop :=
  doc_live d = true -> d !! "deleted_id" = Some (BInt 0).

(** The composite index [[(key, 1), ("deleted_id", 1)]] declared unique:
    no two stored documents agree on both components. *)
Definition index_entry (key : string) (d : bdoc) : option bson * option bson :=
  (d !! key, d !! "deleted_id").

Definition unique_index (key : string) (c : list bdoc) : Prop :=
  NoDup (index_entry key <$> c).

(** What one [delete_many] does to a stored document when it selects the
    live documents matching [q]: the three fields are written, every other
    field is kept, and a document not selected is left as it is. *)
Definition bulk_marked `{RT : Runtime} (match_cond : string -> bson -> bdoc -> bool)
    (q : query) (now : datetime) (by_ : option string) (d d' : bdoc) : Prop :=
  if matches match_cond q d && doc_live d
  then d' !! "deleted_at" = Some (BDate now)
       /\ d' !! "deleted_by" = Some (bson_of_str by_)
       /\ d' !! "deleted_id" = Some (BInt (timestamp_micros now))
       /\ (forall k, k ∉ soft_delete_fields -> d' !! k = d !! k)
  else d' = d.

(** The value [delete] computes for [deleted_id]. *)
Definition single_deleted_id `{RT : Runtime} (self : Document) : Z :=
  match doc_id self with
  | Some i => Z.abs (py_hash i)
  | None => 0
  end.

End SoftDelete.

(* ===================================================================== *)
(** * common_utils/datetime_utils.py                                     *)
(* ===================================================================== *)

Module DatetimeUtils.
Import Py.

(** What the functions of this module can observe and change: the clock
    and the records written through [logger]. *)
Record env := mkEnv {
  clock : Z;
  log : list log_record
}.

Definition logger_error (fmt : string) (e : exn) : M env unit :=
  modify (fun s => {| clock := clock s;
                      log := log s ++ [LogRecord ERROR fmt (Some e)] |}).

Section Functions.
Context `{RT : Runtime}.

(** The module constant [timezone = get_timezone()]. *)
Definition timezone : tzinfo_t := get_timezone.

Definition get_now_with_timezone : M env datetime :=
  gets (fun s => now_at (clock s)).

Definition to_timezone (dt : datetime) (tz : option tzinfo_t) : result datetime :=
  astimezone dt (default timezone tz).

Definition from_timestamp (timestamp : num) : result datetime :=
  if num_ge_1e12 timestamp then
    timestamp_seconds ← num_div_1000 timestamp;
    fromtimestamp (NFloat timestamp_seconds) timezone
  else fromtimestamp timestamp timezone.

(** The tail of [to_iso_format]: attach the local zone to a naive value,
    convert to the local zone, print. *)
Definition localized_isoformat (dt : datetime) : result (option string) :=
  let dt := match tzinfo dt with
            | None => replace_tzinfo dt timezone
            | Some _ => dt
            end in
  dt' ← astimezone dt timezone;
  Ok (Some (isoformat dt')).

(** The branches test [type(time_value)] for identity with [str], [int],
    [float] and [datetime]; a constructor of [pyval] is a type. *)
Definition to_iso_format (time_value : pyval) : result (option string) :=
  match time_value with
  | VNone => Ok None
  | VStr s =>
      if negb (truthy_str s) then Ok None
      else dt ← fromisoformat (normalize_utc_suffix s); localized_isoformat dt
  | VInt z =>
      if num_le_zero (NInt z) then Raise ValueError
      else dt ← from_timestamp (NInt z); localized_isoformat dt
  | VFloat f =>
      if num_le_zero (NFloat f) then Raise ValueError
      else dt ← from_timestamp (NFloat f); localized_isoformat dt
  | VDatetime dt => localized_isoformat dt
  | VBool _ | VSub _ _ | VObject _ _ => Raise TypeError
  end.

Definition to_timestamp_ms (dt : datetime) : result Z := timestamp_millis dt.

(** [str(x)] *)
Fixpoint py_str (v : pyval) : result string :=
  match v with
  | VNone => Ok "None"
  | VBool b => Ok (if b then "True" else "False")
  | VInt z => Ok (str_of_num (NInt z))
  | VFloat f => Ok (str_of_num (NFloat f))
  | VStr s => Ok s
  | VDatetime d => Ok (str_of_datetime d)
  | VSub _ v' => py_str v'
  | VObject _ s => s
  end.

Definition from_iso_format (create_time : pyval) (target_timezone : option tzinfo_t)
    : M env datetime :=
  try_except
    (dt ← lift
       match as_datetime create_time with
       | Some d => Ok d
       | None =>
           match as_str create_time with
           | Some s => fromisoformat (normalize_utc_suffix s)
           | None =>
               time_str ← py_str create_time;
               fromisoformat (normalize_utc_suffix time_str)
           end
       end;
     let dt := match tzinfo dt with
               | None => replace_tzinfo dt (default get_timezone target_timezone)
               | Some _ => dt
               end in
     lift (astimezone dt get_timezone))
    (fun e =>
       logger_error "[DateTimeUtils] from_iso_format - Error: %s" e;;
       get_now_with_timezone).

(** What a handler that answers 0 makes of a computation. *)
Definition handled (r : result Z) : Z :=
  match r with
  | inr z => z
  | inl _ => 0
  end.

Definition universal_error_format : string :=
  "[DateTimeUtils] to_timestamp_ms_universal - Error converting %s: %s".

(** [to_timestamp_ms_universal] calls itself on [float(time_value)] and on
    [str(time_value)].  The first call can only reach the numeric branch
    and the second only the string branch, so the function is laid out as
    these two branches, each with the handler of its own activation, and
    the dispatch on top. *)
Definition universal_of_number (n : num) : M env Z :=
  try_except
    (lift (if num_ge_1e12 n then num_int n else num_int (num_mul_1000 n)))
    (fun e => logger_error universal_error_format e;; mret 0).

Definition universal_of_str (s : string) : M env Z :=
  try_except
    (match float_of_str s with
     | inr f => universal_of_number (NFloat f)
     | inl ValueError =>
         dt ← from_iso_format (VStr s) None; lift (to_timestamp_ms dt)
     | inl e => raise e
     end)
    (fun e => logger_error universal_error_format e;; mret 0).

Definition to_timestamp_ms_universal (time_value : pyval) : M env Z :=
  try_except
    (match time_value with
     | VNone => mret 0
     | _ =>
         match as_number time_value with
         | Some n =>
             lift (if num_ge_1e12 n then num_int n else num_int (num_mul_1000 n))
         | None =>
             match as_str time_value with
             | Some s =>
                 match float_of_str s with
                 | inr f => universal_of_number (NFloat f)
                 | inl ValueError =>
                     dt ← from_iso_format time_value None; lift (to_timestamp_ms dt)
                 | inl e => raise e
                 end
             | None =>
                 match as_datetime time_value with
                 | Some d => lift (to_timestamp_ms d)
                 | None => s ← lift (py_str time_value); universal_of_str s
                 end
             end
         end
     end)
    (fun e => logger_error universal_error_format e;; mret 0).

End Functions.

End DatetimeUtils.

(* ===================================================================== *)
(** * infra_layer/adapters/out/event/memory_request_log_mongo_listener.py *)
(* ===================================================================== *)

Module RequestLogListener.
Import Py.

(** ** JSON documents as [json.loads] builds them *)

(** An object is the list of its items, first occurrence of a key first;
    [dict.get] reads the first item with the key. *)
#[warnings="-register-all"]
Inductive json :=
| JNull
| JBool (b : bool)
| JInt (z : Z)
| JFloat (f : float)
| JStr (s : string)
| JArr (l : list json)
| JObj (items : list (string * json)).

(** [bool(v)] *)
Definition truthy (v : json) : bool :=
  match v with
  | JNull => false
  | JBool b => b
  | JInt z => negb (bool_decide (z = 0))
  | JFloat f => negb (PrimFloat.eqb f 0)
  | JStr s => truthy_str s
  | JArr l => negb (bool_decide (length l = 0%nat))
  | JObj items => negb (bool_decide (length items = 0%nat))
  end.

Fixpoint assoc (k : string) (items : list (string * json)) : option json :=
  match items with
  | [] => None
  | (k', v) :: rest => if bool_decide (k = k') then Some v else assoc k rest
  end.

(** [v.get(k)]: only a dict has the method. *)
Definition get (v : json) (k : string) : result (option json) :=
  match v with
  | JObj items => Ok (assoc k items)
  | _ => Raise AttributeError
  end.

(** [x or y] on the results of two [get] calls; an absent key reads as
    [None], which is falsy. *)
Definition json_or (a b : option json) : option json :=
  match a with
  | Some v => if truthy v then a else b
  | None => b
  end.

Definition truthy_opt (a : option json) : bool :=
  match a with
  | Some v => truthy v
  | None => false
  end.

(** ** Events and the persisted record *)

Record RequestHistoryEvent := mkEvent {
  url : string;
  body : option string;
  headers : gmap string string;
  event_id : option string;
  version : option string;
  endpoint_name : option string;
  method : option string
}.

Inductive BaseEvent :=
| RequestHistory (e : RequestHistoryEvent)
| OtherEvent (type_name : string).

Record MemoryRequestLog := mkMemoryRequestLog {
  log_group_id : string;
  log_request_id : string;
  log_user_id : option string;
  log_message_id : option json;
  log_message_create_time : option json;
  log_sender : option json;
  log_sender_name : option json;
  log_content : option json;
  log_group_name : option json;
  log_refer_list : option json;
  log_raw_input : option json;
  log_raw_input_str : option string;
  log_version : option string;
  log_endpoint_name : option string;
  log_method : option string;
  log_url : string;
  log_organization_id : option string;
  log_space_id : option string;
  log_event_id : option string
}.

(** [urllib.parse.urlparse] gives a path and a query string. *)
Record ParseResult := mkParseResult {
  path : string;
  query : string
}.

(** Collaborators of the listener that the repository does not define:
    the URL and JSON functions of the standard library, [str()] of a JSON
    value that is not a string, the shared field extractor of the API
    mapper, the validation run by the [MemoryRequestLog] constructor, and
    what the awaited [MemoryRequestLogRepository.save] raises, if
    anything. *)
Class Collaborators := {
  urlparse : string -> result ParseResult;
  parse_qs : string -> result (gmap string (list string));
  json_loads : string -> result json;
  str_of_json : json -> string;
  extract_message_core_fields : option json -> result (gmap string json);
  validation_error : MemoryRequestLog -> option exn;
  save_error : MemoryRequestLog -> option raised
}.

(** The collection behind the repository, and the log. *)
Record state := mkState {
  saved : list MemoryRequestLog;
  log : list log_record
}.

Definition emit (lvl : level) (fmt : string) (e : option exn) : Async state unit :=
  async_modify (fun s => {| saved := saved s; log := log s ++ [LogRecord lvl fmt e] |}).

Definition MEMORIES_PATH_PREFIX : string := "/api/v1/memories".

Section Listener.
Context `{CO : Collaborators}.

(** [str(v)] *)
Definition py_str (v : json) : string :=
  match v with
  | JStr s => s
  | _ => str_of_json v
  end.

Definition _is_memories_request (url_ : string) : bool :=
  match urlparse url_ with
  | inr parsed => String.prefix MEMORIES_PATH_PREFIX (path parsed)
  | inl _ => false
  end.

(** [json.loads] failing with anything but the two caught classes
    propagates. *)
Definition _parse_body (body_ : option string) : result (option json) :=
  match body_ with
  | None => Ok None
  | Some b =>
      if negb (truthy_str b) then Ok None
      else match json_loads b with
           | inr v => Ok (Some v)
           | inl JSONDecodeError | inl TypeError => Ok None
           | inl e => Raise e
           end
  end.

(** First value of a query parameter; the [try] around the URL functions
    discards every exception. *)
Definition query_param (url_ : string) (name : string) : option string :=
  match (parsed ← urlparse url_; parse_qs (query parsed)) with
  | inr query_params =>
      match query_params !! name with
      | Some (x :: _) => Some x
      | _ => None
      end
  | inl _ => None
  end.

Definition _extract_group_id (url_ : string) (body_parsed : option json)
    : result (option string) :=
  from_body ←
    match body_parsed with
    | Some b =>
        if truthy b then
          group_id ← get b "group_id";
          Ok (if truthy_opt group_id then py_str <$> group_id else None)
        else Ok None
    | None => Ok None
    end;
  match from_body with
  | Some g => Ok (Some g)
  | None => Ok (query_param url_ "group_id")
  end.

Definition _extract_user_id (url_ : string) (body_parsed : option json)
    (headers_ : gmap string string) : result (option string) :=
  from_body ←
    match body_parsed with
    | Some b =>
        if truthy b then
          a ← get b "user_id";
          user_id ← (if truthy_opt a then Ok a
                     else s ← get b "sender"; Ok (json_or a s));
          Ok (if truthy_opt user_id then py_str <$> user_id else None)
        else Ok None
    | None => Ok None
    end;
  match from_body with
  | Some u => Ok (Some u)
  | None =>
      match query_param url_ "user_id" with
      | Some u => Ok (Some u)
      | None =>
          let user_id := or_else (headers_ !! "X-User-Id") (headers_ !! "x-user-id") in
          Ok (match user_id with
              | Some u => if truthy_str u then Some u else None
              | None => None
              end)
      end
  end.

Definition _extract_request_id (headers_ : gmap string string) : option string :=
  or_else (headers_ !! "X-Request-Id") (headers_ !! "x-request-id").

Definition _extract_tenant_from_headers (headers_ : gmap string string)
    : option string * option string :=
  (or_else (headers_ !! "X-Organization-Id") (headers_ !! "x-organization-id"),
   or_else (headers_ !! "X-Space-Id") (headers_ !! "x-space-id")).

(** [MemoryRequestLog(...)]: the constructor validates its arguments. *)
Definition new_memory_request_log (r : MemoryRequestLog) : result MemoryRequestLog :=
  match validation_error r with
  | Some e => Raise e
  | None => Ok r
  end.

(** [await repo.save(doc)]: the document is appended unless the
    repository raises. *)
Definition repo_save (r : MemoryRequestLog) : Async state unit :=
  match save_error r with
  | Some x => async_raise x
  | None => async_modify (fun s => {| saved := saved s ++ [r]; log := log s |})
  end.

(** [(message_fields.get("content") or "")[:50]], evaluated as an argument
    of the final [logger.debug]: only some values can be sliced. *)
Definition content_preview (content : option json) : result unit :=
  match content with
  | Some (JStr _) | Some (JArr _) | None => Ok tt
  | Some v => if truthy v then Raise TypeError else Ok tt
  end.

Definition truthy_ostr (a : option string) : bool :=
  match a with
  | Some s => truthy_str s
  | None => false
  end.

Definition _save_to_mongo (event : RequestHistoryEvent) : Async state unit :=
  try_except_Exception
    (body_parsed ← sync (_parse_body (body event));
     group_id ← sync (_extract_group_id (url event) body_parsed);
     let request_id := _extract_request_id (headers event) in
     user_id ← sync (_extract_user_id (url event) body_parsed (headers event));
     let '(org_id, space_id) := _extract_tenant_from_headers (headers event) in
     message_fields ← sync (extract_message_core_fields body_parsed);
     match group_id with
     | Some g =>
         if truthy_str g then
           let request_id :=
             if truthy_ostr request_id then default "" request_id
             else default "unknown" (or_else (event_id event) (Some "unknown")) in
           memory_request_log ← sync (new_memory_request_log
             {| log_group_id := g;
                log_request_id := request_id;
                log_user_id := user_id;
                log_message_id := message_fields !! "message_id";
                log_message_create_time := message_fields !! "message_create_time";
                log_sender := message_fields !! "sender";
                log_sender_name := message_fields !! "sender_name";
                log_content := message_fields !! "content";
                log_group_name := message_fields !! "group_name";
                log_refer_list := message_fields !! "refer_list";
                log_raw_input := body_parsed;
                log_raw_input_str := body event;
                log_version := version event;
                log_endpoint_name := endpoint_name event;
                log_method := method event;
                log_url := url event;
                log_organization_id := org_id;
                log_space_id := space_id;
                log_event_id := event_id event |});
           repo_save memory_request_log;;
           sync (content_preview (message_fields !! "content"));;
           emit DEBUG "Memory 请求日志已保存: group_id=%s, request_id=%s, message_id=%s, content_preview=%s" None
         else emit DEBUG "memories 请求缺少 group_id，跳过: url=%s" None
     | None => emit DEBUG "memories 请求缺少 group_id，跳过: url=%s" None
     end)
    (fun e => emit ERROR "保存 Memory 请求日志到 MongoDB 失败: url=%s, error=%s" (Some e)).

Definition on_event (event : BaseEvent) : Async state unit :=
  match event with
  | OtherEvent _ => emit WARNING "收到非 RequestHistoryEvent 类型的事件: %s" None
  | RequestHistory ev =>
      if negb (_is_memories_request (url ev))
      then emit DEBUG "跳过非 memories 请求: url=%s" None
      else _save_to_mongo ev
  end.

(** ** The reading of the extraction rules that the documentation gives *)

(** "First from the body, then from the query parameters": the value under
    [key] of a JSON object body when that value is truthy. *)
Definition body_field (body_parsed : option json) (key : string) : option string :=
  match body_parsed with
  | Some (JObj items) =>
      match assoc key items with
      | Some v => if truthy v then Some (py_str v) else None
      | None => None
      end
  | _ => None
  end.

Definition documented_group_id (url_ : string) (body_parsed : option json)
    : option string :=
  match body_field body_parsed "group_id" with
  | Some g => Some g
  | None => query_param url_ "group_id"
  end.

(** Body ([user_id], then [sender]) before query parameter before the
    [X-User-Id] header. *)
Definition documented_user_id (url_ : string) (body_parsed : option json)
    (headers_ : gmap string string) : option string :=
  match body_field body_parsed "user_id" with
  | Some u => Some u
  | None =>
      match body_field body_parsed "sender" with
      | Some u => Some u
      | None =>
          match query_param url_ "user_id" with
          | Some u => Some u
          | None =>
              match or_else (headers_ !! "X-User-Id") (headers_ !! "x-user-id") with
              | Some u => if truthy_str u then Some u else None
              | None => None
              end
          end
      end
  end.

(** The [X-Request-Id] header, else the event id, else ["unknown"]. *)
Definition documented_request_id (headers_ : gmap string string)
    (event_id_ : option string) : string :=
  match or_else (headers_ !! "X-Request-Id") (headers_ !! "x-request-id") with
  | Some r => if truthy_str r then r
              else match event_id_ with
                   | Some i => if truthy_str i then i else "unknown"
                   | None => "unknown"
                   end
  | None => match event_id_ with
            | Some i => if truthy_str i then i else "unknown"
            | None => "unknown"
            end
  end.

(** A body the extractors are written for: absent, not JSON, a JSON
    object, or a falsy JSON value. *)
Definition object_or_falsy (body_parsed : option json) : Prop :=
  match body_parsed with
  | Some (JObj _) | None => True
  | Some v => truthy v = false
  end.

End Listener.

End RequestLogListener.

(* ===================================================================== *)
(** * service/memcell_delete_service.py                                  *)
(* ===================================================================== *)

Module DeleteService.
Import Py SoftDelete.

(** The dictionary returned by [delete_by_combined_criteria]. *)
Record CriteriaResult := mkCriteriaResult {
  filters : list string;
  count : nat;
  success : bool;
  error : option string
}.

Section Service.

(** The state behind the repository and the document class. *)
Context {W : Type}.

(** State seen by the service: the log and the persistence layer. *)
Record state := mkState {
  log : list log_record;
  store : W
}.

(** Collaborators: the repository injected into the service, the
    [delete_many] class method of the [MemCell] document (its result may
    be [None]), the constant [MAGIC_ALL] of [core.oxm.constants] and the
    [ObjectId] constructor. *)
Variable repo_delete_by_event_id : string -> option string -> Async W bool.
Variable repo_delete_by_user_id : string -> option string -> Async W nat.
Variable memcell_delete_many : query -> option string -> Async W (option UpdateResult).
Variable MAGIC_ALL : string.
Variable ObjectId : string -> result string.

Definition emit (lvl : level) (fmt : string) (e : option exn) : Async state unit :=
  async_modify (fun s => {| log := log s ++ [LogRecord lvl fmt e]; store := store s |}).

(** An awaited call into the persistence layer acts on the [store]
    component. *)
Definition persistence {A} (m : Async W A) : Async state A :=
  fun s => let '(r, w') := m (store s) in (r, {| log := log s; store := w' |}).

(** [f"{event_id}"] *)
Definition format_event_id (event_id : option string) : string :=
  match event_id with
  | Some s => s
  | None => "None"
  end.

(** State left by a method whose persistence call raised [e]: the store
    is what the failing call left, and the log gained the opening record
    and the error report carrying [e]. *)
Definition after_failure (s : state) (w' : W) (opening report : string)
    (e : exn) : state :=
  {| log := log s ++ [LogRecord INFO opening None; LogRecord ERROR report (Some e)];
     store := w' |}.

(** State left by a method whose task was cancelled while it awaited the
    persistence call: the store is what the call left, and the log
    gained the opening record only. *)
Definition after_cancellation (s : state) (w' : W) (opening : string) : state :=
  {| log := log s ++ [LogRecord INFO opening None]; store := w' |}.

Definition delete_by_event_id (event_id : string) (deleted_by_ : option string)
    : Async state bool :=
  emit INFO "Deleting MemCell by event_id: event_id=%s, deleted_by=%s" None;;
  try_except_Exception
    (result ← persistence (repo_delete_by_event_id event_id deleted_by_);
     (if result : bool
      then emit INFO "Successfully deleted MemCell: event_id=%s, deleted_by=%s" None
      else emit WARNING "MemCell not found or already deleted: event_id=%s" None);;
     mret result)
    (fun e =>
       emit ERROR "Failed to delete MemCell by event_id: event_id=%s, error=%s" (Some e);;
       reraise e).

Definition delete_by_user_id (user_id : string) (deleted_by_ : option string)
    : Async state nat :=
  emit INFO "Deleting MemCells by user_id: user_id=%s, deleted_by=%s" None;;
  try_except_Exception
    (count_ ← persistence (repo_delete_by_user_id user_id deleted_by_);
     emit INFO
       "Successfully deleted MemCells by user_id: user_id=%s, deleted_by=%s, count=%d"
       None;;
     mret count_)
    (fun e =>
       emit ERROR "Failed to delete MemCells by user_id: user_id=%s, error=%s" (Some e);;
       reraise e).

(** [result.modified_count if result else 0] *)
Definition modified_or_zero (r : option UpdateResult) : nat :=
  match r with
  | Some u => modified_count u
  | None => 0%nat
  end.

Definition delete_by_group_id (group_id : string) (deleted_by_ : option string)
    : Async state nat :=
  emit INFO "Deleting MemCells by group_id: group_id=%s, deleted_by=%s" None;;
  try_except_Exception
    (result ← persistence
       (memcell_delete_many {[ "group_id" := BStr group_id ]} deleted_by_);
     let count_ := modified_or_zero result in
     emit INFO
       "Successfully deleted MemCells by group_id: group_id=%s, deleted_by=%s, count=%d"
       None;;
     mret count_)
    (fun e =>
       emit ERROR "Failed to delete MemCells by group_id: group_id=%s, error=%s" (Some e);;
       reraise e).

(** [x and x != MAGIC_ALL] on an optional string *)
Definition given (x : option string) : option string :=
  match x with
  | Some s => if truthy_str s && negb (bool_decide (s = MAGIC_ALL)) then Some s else None
  | None => None
  end.

(** The filter-building part of [delete_by_combined_criteria]: the filter,
    the names of the criteria used, or the exception of [ObjectId]. *)
Definition build_filter (event_id user_id group_id : option string)
    : result (query * list string) :=
  '(filter_dict, filters_used) ←
    match given event_id with
    | Some e => oid ← ObjectId e; Ok ({[ "_id" := BOid oid ]}, ["event_id"])
    | None => Ok ((∅ : query), [])
    end;
  let '(filter_dict, filters_used) :=
    match given user_id with
    | Some u => (<["user_id" := BStr u]> filter_dict, filters_used ++ ["user_id"])
    | None => (filter_dict, filters_used)
    end in
  let '(filter_dict, filters_used) :=
    match given group_id with
    | Some g => (<["group_id" := BStr g]> filter_dict, filters_used ++ ["group_id"])
    | None => (filter_dict, filters_used)
    end in
  Ok (filter_dict, filters_used).

Definition delete_by_combined_criteria (event_id user_id group_id : option string)
    : Async state CriteriaResult :=
  match build_filter event_id user_id group_id with
  | inl e =>
      emit ERROR "Invalid event_id format: %s, error: %s" (Some e);;
      mret {| filters := []; count := 0; success := false;
              error := Some ("Invalid event_id format: " +:+ format_event_id event_id) |}
  | inr (filter_dict, filters_used) =>
      if bool_decide (filter_dict = ∅) then
        emit WARNING "No deletion criteria provided (all are MAGIC_ALL)" None;;
        mret {| filters := []; count := 0; success := false;
                error := Some "No deletion criteria provided" |}
      else
        emit INFO "Deleting MemCells with combined criteria: filters=%s" None;;
        try_except_Exception
          (result ← persistence (memcell_delete_many filter_dict None);
           let count_ := modified_or_zero result in
           emit INFO "Successfully deleted MemCells: filters=%s, count=%d" None;;
           mret {| filters := filters_used; count := count_;
                   success := bool_decide (0 < count_)%nat; error := None |})
          (fun e =>
             emit ERROR
               "Failed to delete MemCells with combined criteria: filters=%s, error=%s"
               (Some e);;
             reraise e)
  end.

End Service.

End DeleteService.

(* ===================================================================== *)
(** * Queries, effect summaries and wiring                               *)
(* ===================================================================== *)

(** The find methods of [document_base_with_soft_delete.py]. *)
Module SoftDeleteQueries.
Import Py SoftDelete.

Section Queries.
Variable match_cond : string -> bson -> bdoc -> bool.

(** [cls._add_class_id_filter(args, with_children)] of the mapping layer. *)
Variable _add_class_id_filter : list query -> bool -> list query.

(** Each find method hands a tuple of find expressions to the query class
    of the mapping layer; projection, sort, skip, limit, session, cache
    and link options are passed on as received. *)
Definition hard_find_many (args : list query) (with_children : bool) : list query :=
  _add_class_id_filter args with_children.

Definition find_many_in_all (args : list query) (with_children : bool) : list query :=
  hard_find_many args with_children.

Definition find_many (args : list query) (with_children : bool) : list query :=
  _add_class_id_filter args with_children ++ [{[ "deleted_at" := BNull ]}].

Definition hard_find_one (args : list query) (with_children : bool) : list query :=
  _add_class_id_filter args with_children.

Definition find_one (args : list query) (with_children : bool) : list query :=
  _add_class_id_filter args with_children ++ [{[ "deleted_at" := BNull ]}].

(** The query class combines its find expressions by conjunction: a
    document is selected when every expression matches it. *)
Definition selects (exprs : list query) (d : bdoc) : bool :=
  forallb (fun q => matches match_cond q d) exprs.

(** The documents a query selects, in storage order, before sort, skip
    and limit are applied. *)
Definition selected (exprs : list query) (c : list bdoc) : list bdoc :=
  filter (fun d => selects exprs d = true) c.

End Queries.

(** [{**q, **extra}]: the entries of [extra] win. *)
Definition dict_merge (q extra : query) : query := extra ∪ q.

(** A stored document written the way the mapping layer writes a live
    object: the three fields present with their defaults. *)
Definition doc_pristine (d : bdoc) : Prop :=
  d !! "deleted_at" = Some BNull
  /\ d !! "deleted_by" = Some BNull
  /\ d !! "deleted_id" = Some (BInt 0).

End SoftDeleteQueries.

(** What the functions of [datetime_utils.py] do to their environment. *)
Module DatetimeEffects.
Import Py DatetimeUtils.

(** A computation that leaves the clock alone and may only append error
    records to the log. *)
Definition log_only {A} (m : M env A) : Prop :=
  forall w,
    clock (m w).2 = clock w
    /\ exists l, log (m w).2 = log w ++ l
                 /\ Forall (fun r => log_level r = ERROR) l.

(** A computation that does not raise. *)
Definition never_raises {A} (m : M env A) : Prop :=
  forall w, exists a, (m w).1 = Ok a.

(** ["Z" in s] *)
Fixpoint has_Z (s : string) : bool :=
  match s with
  | EmptyString => false
  | String c r => bool_decide (c = "Z"%char) || has_Z r
  end.

End DatetimeEffects.

(** The deletion service on top of the soft-delete mixin. *)
Module Wiring.
Import Py SoftDelete.

(** [MemCell.delete_many] when the document class takes the class method
    from [DocumentBaseWithSoftDelete] and the store is reachable. *)
Definition mixin_delete_many `{RT : Runtime}
    (match_cond : string -> bson -> bdoc -> bool)
    (q : query) (by_ : option string) : Async world (option UpdateResult) :=
  fun w => let '(r, w') := delete_many match_cond q by_ w in (Ok (Some r), w').

(** A criterion that [delete_by_combined_criteria] leaves out of its
    filter: absent, empty, or the [MAGIC_ALL] wildcard. *)
Definition ignored (MAGIC_ALL : string) (x : option string) : Prop :=
  x = None \/ x = Some "" \/ x = Some MAGIC_ALL.

End Wiring.

(* ===================================================================== *)
(** * Sample environment and data                                        *)
(* ===================================================================== *)

(** A small interpreter environment and a few documents on which the
    statements below are exercised.  The library functions answer as the
    interpreter does on the inputs that occur here and refuse every other
    input. *)
Module Sample.
Import Py SoftDelete.

Definition hour : Z := 3600000000.

Definition shanghai_offset (key : string) : Z :=
  if bool_decide (key = "Asia/Shanghai") then 8 * hour else 0.

Definition shanghai_offset_of (tz : tzinfo_t) : Z :=
  match tz with
  | ZoneInfo k => shanghai_offset k
  | FixedOffset o => o
  end.

(** 2025-09-16T20:20:06 as a calendar reading *)
Definition wall_2025_09_16 : Z := 1758054006000000.

#[global] Instance runtime : Runtime := {|
  TZ := "Asia/Shanghai";
  zone_offset_at_utc := fun key _ => shanghai_offset key;
  zone_offset_at_wall := fun key _ => shanghai_offset key;
  local_timezone := fun w =>
    if bool_decide (w < -62135596800000000 + 86400000000) then Raise ValueError
    else Ok 0;
  py_hash := fun s => Z.of_nat (String.length s) - 100;
  timestamp_micros := fun dt =>
    wall dt - match tzinfo dt with
              | Some (ZoneInfo k) => shanghai_offset k
              | Some (FixedOffset o) => o
              | None => 0
              end;
  timestamp_millis := fun dt =>
    Ok ((wall dt - match tzinfo dt with
                   | Some (ZoneInfo k) => shanghai_offset k
                   | Some (FixedOffset o) => o
                   | None => 0
                   end) `div` 1000);
  fromisoformat := fun s =>
    if bool_decide (s = "2025-09-16T20:20:06+08:00")
    then Ok {| wall := wall_2025_09_16; tzinfo := Some (FixedOffset (8 * hour)) |}
    else if bool_decide (s = "2025-09-16T12:20:06+00:00")
    then Ok {| wall := wall_2025_09_16 - 8 * hour; tzinfo := Some (FixedOffset 0) |}
    else Raise ValueError;
  isoformat := fun dt =>
    if bool_decide (dt = {| wall := wall_2025_09_16; tzinfo := Some (ZoneInfo "Asia/Shanghai") |})
    then "2025-09-16T20:20:06+08:00" else "";
  float_of_str := fun s =>
    if bool_decide (s = "1.5") then Ok 1.5%float else Raise ValueError;
  fromtimestamp := fun t tz =>
    match t with
    | NInt z =>
        if bool_decide (z = 1758025206)
        then Ok {| wall := wall_2025_09_16 - 8 * hour + shanghai_offset_of tz;
                   tzinfo := Some tz |}
        else Raise OverflowError
    | NFloat _ => Raise OverflowError
    end;
  str_of_num := fun _ => "0";
  str_of_datetime := fun _ => "2025-09-16 20:20:06+08:00"
|}.

(** Equality on a field and ["$ne"], with an absent field read as null:
    the part of the query language used by the samples. *)
Definition match_cond (k : string) (v : bson) (d : bdoc) : bool :=
  let cur := default BNull (d !! k) in
  match v with
  | BDoc [(op, x)] =>
      if bool_decide (op = "$ne") then negb (bool_decide (cur = x))
      else bool_decide (cur = v)
  | _ => bool_decide (cur = v)
  end.

Definition stored (i email : string) (at_ : bson) (by_ : bson) (did : Z) : bdoc :=
  {[ "_id" := BOid i; "email" := BStr email;
     "deleted_at" := at_; "deleted_by" := by_; "deleted_id" := BInt did ]}.

Definition oid_a : string := "507f1f77bcf86cd799439011".
Definition oid_b : string := "507f1f77bcf86cd799439012".

Definition live_a : bdoc := stored oid_a "a@example.com" BNull BNull 0.
Definition live_b : bdoc := stored oid_b "b@example.com" BNull BNull 0.

Definition clock0 : Z := wall_2025_09_16 - 8 * hour.
Definition now0 : datetime := now_at clock0.

(** A record soft-deleted earlier by [alice]. *)
Definition gone_a : bdoc :=
  stored oid_a "a@example.com"
    (BDate {| wall := 1700000000000000; tzinfo := Some (ZoneInfo "Asia/Shanghai") |})
    (BStr "alice") 7.

(** A record with the business key of [live_a2] that an earlier bulk
    deletion marked at clock reading [clock0]. *)
Definition gone_same_clock : bdoc :=
  stored oid_a "a@example.com" (BDate now0) (BStr "alice") (timestamp_micros now0).
Definition live_a2 : bdoc := stored oid_b "a@example.com" BNull BNull 0.

(** A heap holding the caller's filter [{"status": "active"}]. *)
Definition caller_filter : positive := 1%positive.
Definition heap0 : gmap positive (gmap string bson) :=
  {[ caller_filter := {[ "status" := BStr "active" ]} ]}.

Definition world0 (c : list bdoc) : world :=
  {| clock := clock0; collection := c; calls := [] |}.

Definition unsaved : Document := new_document None {[ "email" := BStr "a@example.com" ]}.
Definition saved_a : Document := new_document (Some oid_a) {[ "email" := BStr "a@example.com" ]}.

(** *** Requests seen by the listener *)

(** The double-quote character, for JSON text. *)
Definition dq : string := String (ascii_of_nat 34) EmptyString.

(** [{"group_id": "g7", "sender": "u1"}] *)
Definition object_body : string :=
  "{" +:+ dq +:+ "group_id" +:+ dq +:+ ": " +:+ dq +:+ "g7" +:+ dq +:+ ", "
      +:+ dq +:+ "sender" +:+ dq +:+ ": " +:+ dq +:+ "u1" +:+ dq +:+ "}".

#[global] Instance collaborators : RequestLogListener.Collaborators := {|
  RequestLogListener.urlparse := fun u =>
    if bool_decide (u = "/api/v1/memories?group_id=g1")
    then Ok {| RequestLogListener.path := "/api/v1/memories";
               RequestLogListener.query := "group_id=g1" |}
    else if bool_decide (u = "/api/v1/memories")
    then Ok {| RequestLogListener.path := "/api/v1/memories";
               RequestLogListener.query := "" |}
    else if bool_decide (u = "/health")
    then Ok {| RequestLogListener.path := "/health";
               RequestLogListener.query := "" |}
    else Raise ValueError;
  RequestLogListener.parse_qs := fun q =>
    if bool_decide (q = "group_id=g1") then Ok {[ "group_id" := ["g1"] ]}
    else if bool_decide (q = "") then Ok ∅
    else Raise ValueError;
  RequestLogListener.json_loads := fun b =>
    if bool_decide (b = "[1]")
    then Ok (RequestLogListener.JArr [RequestLogListener.JInt 1])
    else if bool_decide (b = "[]") then Ok (RequestLogListener.JArr [])
    else if bool_decide (b = object_body)
    then Ok (RequestLogListener.JObj
               [("group_id", RequestLogListener.JStr "g7");
                ("sender", RequestLogListener.JStr "u1")])
    else Raise JSONDecodeError;
  RequestLogListener.str_of_json := fun _ => "?";
  RequestLogListener.extract_message_core_fields := fun _ => Ok ∅;
  RequestLogListener.validation_error := fun _ => None;
  RequestLogListener.save_error := fun _ => None
|}.

Definition request (u : string) (b : option string) : RequestLogListener.RequestHistoryEvent :=
  {| RequestLogListener.url := u;
     RequestLogListener.body := b;
     RequestLogListener.headers := {[ "X-User-Id" := "header-user" ]};
     RequestLogListener.event_id := Some "evt-1";
     RequestLogListener.version := None;
     RequestLogListener.endpoint_name := None;
     RequestLogListener.method := Some "POST" |}.

Definition listener0 : RequestLogListener.state :=
  {| RequestLogListener.saved := []; RequestLogListener.log := [] |}.

(** *** A persistence layer for the deletion service *)

(** The class method [delete_many] on a store that may be unreachable. *)
Definition memcell_delete_many (down : option raised) (q : query) (by_ : option string)
    : Async world (option UpdateResult) :=
  fun w =>
    match down with
    | Some e => (Raise e, w)
    | None => let '(r, w') := delete_many match_cond q by_ w in (Ok (Some r), w')
    end.

Definition repo_delete_by_event_id (down : option raised) (event_id : string)
    (by_ : option string) : Async world bool :=
  fun w =>
    match down with
    | Some e => (Raise e, w)
    | None =>
        let '(r, w') := delete_many match_cond {[ "_id" := BOid event_id ]} by_ w in
        (Ok (bool_decide (0 < modified_count r)%nat), w')
    end.

Definition repo_delete_by_user_id (down : option raised) (user_id : string)
    (by_ : option string) : Async world nat :=
  fun w =>
    match down with
    | Some e => (Raise e, w)
    | None =>
        let '(r, w') := delete_many match_cond {[ "user_id" := BStr user_id ]} by_ w in
        (Ok (modified_count r), w')
    end.

Definition object_id (s : string) : result string :=
  if bool_decide (String.length s = 24%nat) then Ok s else Raise (OtherError "InvalidId").

Definition timeout : exn := OtherError "ServerSelectionTimeoutError".

Definition service0 : DeleteService.state :=
  {| DeleteService.log := []; DeleteService.store := world0 [live_a] |}.

End Sample.

(** Memory cells of two groups, and the listener's collaborators when the
    repository refuses every document. *)
Module SampleMore.
Import Py SoftDelete.

Definition memcell (i user group : string) : bdoc :=
  {[ "_id" := BOid i; "user_id" := BStr user; "group_id" := BStr group;
     "deleted_at" := BNull; "deleted_by" := BNull; "deleted_id" := BInt 0 ]}.

Definition cell_1 : bdoc := memcell Sample.oid_a "u1" "g1".
Definition cell_2 : bdoc := memcell Sample.oid_b "u2" "g1".
Definition cell_3 : bdoc := memcell "507f1f77bcf86cd799439013" "u1" "g2".

Definition cells : DeleteService.state :=
  {| DeleteService.log := [];
     DeleteService.store := Sample.world0 [cell_1; cell_2; cell_3] |}.

Definition refusing_repository : RequestLogListener.Collaborators := {|
  RequestLogListener.urlparse :=
    RequestLogListener.urlparse (Collaborators := Sample.collaborators);
  RequestLogListener.parse_qs :=
    RequestLogListener.parse_qs (Collaborators := Sample.collaborators);
  RequestLogListener.json_loads :=
    RequestLogListener.json_loads (Collaborators := Sample.collaborators);
  RequestLogListener.str_of_json :=
    RequestLogListener.str_of_json (Collaborators := Sample.collaborators);
  RequestLogListener.extract_message_core_fields :=
    RequestLogListener.extract_message_core_fields (Collaborators := Sample.collaborators);
  RequestLogListener.validation_error := fun _ => None;
  RequestLogListener.save_error := fun _ => Some (Exc Sample.timeout)
|}.

(** The same collaborators when the task is cancelled while it awaits
    the repository. *)
Definition cancelled_save : RequestLogListener.Collaborators := {|
  RequestLogListener.urlparse :=
    RequestLogListener.urlparse (Collaborators := Sample.collaborators);
  RequestLogListener.parse_qs :=
    RequestLogListener.parse_qs (Collaborators := Sample.collaborators);
  RequestLogListener.json_loads :=
    RequestLogListener.json_loads (Collaborators := Sample.collaborators);
  RequestLogListener.str_of_json :=
    RequestLogListener.str_of_json (Collaborators := Sample.collaborators);
  RequestLogListener.extract_message_core_fields :=
    RequestLogListener.extract_message_core_fields (Collaborators := Sample.collaborators);
  RequestLogListener.validation_error := fun _ => None;
  RequestLogListener.save_error := fun _ => Some CancelledError
|}.

End SampleMore.

(* ===================================================================== *)
(** * Properties of the soft-delete mixin                                *)
(* ===================================================================== *)

Module SoftDeleteProofs.
Import Py SoftDelete.

(** ** The filter constructor *)

Lemma soft_delete_filter_lookup (q : query) (incl : bool) (k : string) :
  soft_delete_filter q incl !! k =
    if bool_decide (k = "deleted_at" /\ incl = false /\ q !! "deleted_at" = None)
    then Some BNull else q !! k.
Proof.
  unfold soft_delete_filter.
  destruct incl; simpl.
  - rewrite bool_decide_eq_false_2; [done | naive_solver].
  - destruct (q !! "deleted_at") as [v|] eqn:Hq.
    + rewrite (bool_decide_eq_true_2 ("deleted_at" ∈ dom q)); simpl.
      * rewrite bool_decide_eq_false_2; [done | naive_solver].
      * apply elem_of_dom; eauto.
    + rewrite (bool_decide_eq_false_2 ("deleted_at" ∈ dom q)); simpl.
      * case_bool_decide as Hk.
        -- destruct Hk as (-> & _). apply lookup_insert_eq.
        -- rewrite lookup_insert_ne; [done | naive_solver].
      * rewrite elem_of_dom, Hq. by intros [? ?].
Qed.

Lemma soft_delete_filter_unchanged (q : query) (incl : bool) :
  incl = true \/ is_Some (q !! "deleted_at") -> soft_delete_filter q incl = q.
Proof.
  intros Hc. apply map_eq. intros k. rewrite soft_delete_filter_lookup.
  rewrite bool_decide_eq_false_2; [done|].
  intros (_ & Hi & Hq). destruct Hc as [Ht | [v Hv]]; congruence.
Qed.

Lemma new_dict_fresh (d : query) (h : heap) : h !! (new_dict d h).1 = None.
Proof.
  simpl. apply not_elem_of_dom. apply is_fresh.
Qed.

(** C9: [apply_soft_delete_filter] leaves every existing dictionary, the
    caller's mapping included, as it was and returns a dictionary that did
    not exist before.  The returned dictionary holds the caller's entries
    (none when no filter is given) and, exactly when [include_deleted] is
    false and the caller has no ["deleted_at"] key, the further entry
    [deleted_at = None]; otherwise it equals a copy of the input. *)
Theorem apply_soft_delete_filter_pure
    (h : heap) (filter_query : option positive) (include_deleted : bool) :
  let q := from_option (fun l => dict_contents l h) ∅ filter_query in
  let r := (apply_soft_delete_filter filter_query include_deleted h).1 in
  let h' := (apply_soft_delete_filter filter_query include_deleted h).2 in
  h !! r = None
  /\ (forall l, is_Some (h !! l) -> h' !! l = h !! l)
  /\ (forall l, l <> r -> h' !! l = h !! l)
  /\ h' !! r = Some (soft_delete_filter q include_deleted)
  /\ (forall k, soft_delete_filter q include_deleted !! k =
        if bool_decide (k = "deleted_at" /\ include_deleted = false
                        /\ q !! "deleted_at" = None)
        then Some BNull else q !! k)
  /\ (include_deleted = true \/ is_Some (q !! "deleted_at") ->
        h' !! r = Some q)
  /\ (filter_query = None -> include_deleted = true -> h' !! r = Some ∅)
  /\ get_soft_delete_filter include_deleted = soft_delete_filter ∅ include_deleted.
Proof.
  intros q r h'.
  assert (Hq : exists h1, new_dict q h = (r, h1) /\
            (h' = h1 \/ h' = dict_setitem r "deleted_at" BNull h1) /\
            h' !! r = Some (soft_delete_filter q include_deleted)).
  { subst r h'. unfold apply_soft_delete_filter.
    assert (Hnd : (match filter_query with
                   | Some l => new_dict (dict_contents l h) h
                   | None => new_dict ∅ h
                   end) = new_dict q h) by (subst q; by destruct filter_query).
    rewrite Hnd. unfold new_dict. cbv zeta.
    set (l := fresh (dom h)).
    assert (Hc : dict_contents l (<[l:=q]> h) = q)
      by (unfold dict_contents; by rewrite lookup_insert_eq).
    rewrite Hc. unfold soft_delete_filter.
    destruct (negb include_deleted && negb (bool_decide ("deleted_at" ∈ dom q))); simpl.
    - eexists; split; [done|]. split; [by right|].
      unfold dict_setitem. by rewrite lookup_alter_eq, lookup_insert_eq.
    - eexists; split; [done|]. split; [by left|]. by rewrite lookup_insert_eq. }
  destruct Hq as (h1 & Hnew & Hh' & Hres).
  assert (Hfresh : h !! r = None).
  { pose proof (new_dict_fresh q h) as Hf. by rewrite Hnew in Hf. }
  assert (Hh1 : h1 = <[r:=q]> h).
  { unfold new_dict in Hnew. by inversion Hnew. }
  assert (Hother : forall l, l <> r -> h' !! l = h !! l).
  { intros l Hl. destruct Hh' as [-> | ->]; subst h1.
    - by rewrite lookup_insert_ne.
    - unfold dict_setitem. rewrite lookup_alter_ne by done.
      by rewrite lookup_insert_ne. }
  split; [done|]. split.
  { intros l [x Hx]. apply Hother. intros ->. congruence. }
  split; [done|]. split; [done|]. split.
  { intros k. apply soft_delete_filter_lookup. }
  split.
  { intros Hc. rewrite Hres. f_equal. by apply soft_delete_filter_unchanged. }
  split.
  { intros -> ->. rewrite Hres. done. }
  unfold get_soft_delete_filter, soft_delete_filter.
  destruct include_deleted; simpl; [done|].
  rewrite bool_decide_eq_false_2 by set_solver. simpl.
  by rewrite insert_empty.
Qed.

Lemma apply_soft_delete_filter_witness :
  is_Some (Sample.heap0 !! Sample.caller_filter)
  /\ (apply_soft_delete_filter (Some Sample.caller_filter) false Sample.heap0).2
       !! Sample.caller_filter
     = Some {[ "status" := BStr "active" ]}
  /\ (apply_soft_delete_filter (Some Sample.caller_filter) false Sample.heap0).2
       !! (apply_soft_delete_filter (Some Sample.caller_filter) false Sample.heap0).1
     = Some {[ "status" := BStr "active"; "deleted_at" := BNull ]}.
Proof.
  assert (Hs : is_Some (Sample.heap0 !! Sample.caller_filter)) by (by eexists).
  pose proof (apply_soft_delete_filter_pure Sample.heap0
                (Some Sample.caller_filter) false) as (_ & Hkeep & _ & Hres & _).
  split; [exact Hs|]. split.
  - by rewrite (Hkeep _ Hs).
  - rewrite Hres. vm_compute. reflexivity.
Defined.

(** ** What the collection calls do to stored documents *)

Section Operations.
Context `{RT : Runtime}.
Variable match_cond : string -> bson -> bdoc -> bool.

Lemma apply_set_lookup (s d : bdoc) (k : string) :
  apply_set s d !! k = match s !! k with Some v => Some v | None => d !! k end.
Proof.
  unfold apply_set. destruct (s !! k) as [v|] eqn:Hs.
  - by apply lookup_union_Some_l.
  - by rewrite lookup_union_r.
Qed.

Lemma apply_set_other (s d : bdoc) (k : string) :
  k ∉ dom s -> apply_set s d !! k = d !! k.
Proof.
  intros Hk. rewrite apply_set_lookup.
  apply not_elem_of_dom in Hk. by rewrite Hk.
Qed.

Lemma update_first_pointwise (q : query) (s : bdoc) (c : list bdoc) :
  Forall2 (updated_by match_cond q s) c (update_first match_cond q s c).
Proof.
  induction c as [|d c IH]; simpl; [constructor|].
  destruct (matches match_cond q d) eqn:Hm.
  - constructor; [right; done|]. apply Forall2_same_length_lookup.
    split; [done|]. intros i x y Hx Hy. left. congruence.
  - constructor; [by left | done].
Qed.

Lemma update_all_pointwise (q : query) (s : bdoc) (c : list bdoc) :
  Forall2 (fun d d' => d' = if matches match_cond q d then apply_set s d else d)
          c (update_all match_cond q s c).
Proof.
  unfold update_all. induction c as [|d c IH]; simpl; constructor; done.
Qed.

Lemma update_all_updated_by (q : query) (s : bdoc) (c : list bdoc) :
  Forall2 (updated_by match_cond q s) c (update_all match_cond q s c).
Proof.
  eapply Forall2_impl; [apply update_all_pointwise|].
  intros d d' ->. unfold updated_by.
  destruct (matches match_cond q d); [right | left]; done.
Qed.

Lemma updated_by_keeps_ids (q : query) (s : bdoc) (c c' : list bdoc) :
  "_id" ∉ dom s -> Forall2 (updated_by match_cond q s) c c' -> stored_ids c' = stored_ids c.
Proof.
  intros Hs Hf. unfold stored_ids.
  induction Hf as [|d d' c c' Hd _ IH]; simpl; [done|].
  f_equal; [|done].
  destruct Hd as [-> | [_ ->]]; [done|]. by apply apply_set_other.
Qed.

Lemma soft_delete_set_dom (now : datetime) (by_ : option string) (did : Z) :
  dom (soft_delete_set now by_ did) = soft_delete_fields.
Proof.
  unfold soft_delete_set, soft_delete_fields.
  rewrite !dom_insert_L, dom_singleton_L. set_solver.
Qed.

Lemma restore_set_dom : dom restore_set = soft_delete_fields.
Proof.
  unfold restore_set, soft_delete_fields.
  rewrite !dom_insert_L, dom_singleton_L. set_solver.
Qed.

Lemma id_not_soft_delete_field : "_id" ∉ soft_delete_fields.
Proof. unfold soft_delete_fields. set_solver. Qed.

Lemma issued_call (w : world) (cmd : command) :
  issued w (call match_cond cmd w) = [cmd].
Proof.
  unfold issued, call; simpl. by rewrite drop_app_length.
Qed.

Lemma issued_refl (w : world) : issued w w = [].
Proof. unfold issued. apply drop_all. Qed.

End Operations.

(** ** Single-document operations *)

Section Instance_methods.
Context `{RT : Runtime}.
Variable match_cond : string -> bson -> bdoc -> bool.
Variable _add_class_id_filter : list query -> bool -> list query.

(** The server reads the entry [_id: ObjectId(i)] as equality with the
    stored primary key. *)
Hypothesis match_id :
  forall i d, match_cond "_id" (BOid i) d = bool_decide (d !! "_id" = Some (BOid i)).

Lemma matches_singleton (k : string) (v : bson) (d : bdoc) :
  matches match_cond {[ k := v ]} d = match_cond k v d.
Proof.
  unfold matches. apply eq_true_iff_eq. rewrite bool_decide_eq_true.
  by rewrite map_Forall_singleton.
Qed.

Lemma matches_id (i : string) (d : bdoc) :
  matches match_cond {[ "_id" := BOid i ]} d
  = bool_decide (d !! "_id" = Some (BOid i)).
Proof using match_id.
  by rewrite matches_singleton, match_id.
Qed.

(** Primary keys are unique in a collection, so an update by primary key
    changes the document that carries the key and no other. *)
Lemma update_first_unique_id (i : string) (s : bdoc) (c : list bdoc) :
  NoDup (stored_ids c) ->
  Forall2 (fun d d' => d' = if bool_decide (d !! "_id" = Some (BOid i))
                            then apply_set s d else d)
          c (update_first match_cond {[ "_id" := BOid i ]} s c).
Proof using match_id.
  induction c as [|d c IH]; simpl; [constructor|].
  intros [Hd Hc]%NoDup_cons. rewrite matches_id.
  case_bool_decide as Hi.
  - constructor; [by rewrite bool_decide_eq_true_2|].
    apply Forall2_same_length_lookup. split; [done|].
    intros j x y Hx Hy. assert (x = y) as -> by congruence.
    rewrite bool_decide_eq_false_2; [done|]. intros Hyi.
    apply Hd. unfold stored_ids.
    apply list_elem_of_fmap. exists y. split; [congruence|].
    by eapply list_elem_of_lookup_2.
  - constructor; [by rewrite bool_decide_eq_false_2 | by apply IH].
Qed.

Lemma is_deleted_true (self : Document) :
  is_deleted self = true <-> deleted_at self <> None.
Proof.
  unfold is_deleted. rewrite negb_true_iff, bool_decide_eq_false. done.
Qed.

Lemma is_deleted_false (self : Document) :
  is_deleted self = false <-> deleted_at self = None.
Proof.
  unfold is_deleted. rewrite negb_false_iff, bool_decide_eq_true. done.
Qed.

Lemma delete_result_deleted (self : Document) (by_ : option string) (w : world) :
  is_deleted (delete match_cond self by_ w).1 = true.
Proof.
  unfold delete. destruct (is_deleted self) eqn:Hd; simpl; [done|].
  by apply is_deleted_true.
Qed.

Lemma restore_result_live (self : Document) (w : world) :
  is_deleted (restore match_cond self w).1 = false.
Proof.
  unfold restore. destruct (is_deleted self) eqn:Hd; simpl; [|done].
  by apply is_deleted_false.
Qed.

Lemma now_is_aware (w : world) :
  tzinfo (get_now_with_timezone w) = Some get_timezone.
Proof. done. Qed.

(** C5: outside their precondition both operations do nothing.  [delete]
    on a document that is already soft-deleted hands back the object with
    its three audit fields as they were and reaches the collection with no
    call; [restore] on a live document likewise.  Hence a second [delete]
    (by whatever operator, at whatever later time) after a first changes
    nothing further, and the same holds for [restore]. *)
Theorem delete_restore_noop_outside_precondition :
  (forall self by_ w,
      is_deleted self = true ->
      delete match_cond self by_ w = (self, w)
      /\ issued w (delete match_cond self by_ w).2 = [])
  /\ (forall self w,
      is_deleted self = false ->
      restore match_cond self w = (self, w)
      /\ issued w (restore match_cond self w).2 = [])
  /\ (forall self by1 by2 w w2,
      let once := delete match_cond self by1 w in
      delete match_cond once.1 by2 w2 = (once.1, w2))
  /\ (forall self w w2,
      let once := restore match_cond self w in
      restore match_cond once.1 w2 = (once.1, w2)).
Proof.
  split; [|split; [|split]].
  - intros self by_ w Hd. unfold delete. rewrite Hd. simpl.
    split; [done | apply issued_refl].
  - intros self w Hd. unfold restore. rewrite Hd. simpl.
    split; [done | apply issued_refl].
  - intros self by1 by2 w w2 once.
    pose proof (delete_result_deleted self by1 w) as Hd. fold once in Hd.
    unfold delete at 1. by rewrite Hd.
  - intros self w w2 once.
    pose proof (restore_result_live self w) as Hd. fold once in Hd.
    unfold restore at 1. by rewrite Hd.
Qed.


(** C3: [delete] followed by [restore] on a live document leaves
    [deleted_at = None], [deleted_by = None] and [deleted_id = 0] on the
    object and sends exactly these three values in the second update; a
    document that started with these values is back to what it was.  The
    two updates name no field besides the three, the object keeps its key
    and its other fields, and every stored document keeps all its other
    fields too. *)
Theorem delete_then_restore_roundtrip
    (self : Document) (by_ : option string) (w : world) :
  is_deleted self = false ->
  let d1 := delete match_cond self by_ w in
  let d2 := restore match_cond d1.1 d1.2 in
  (deleted_at d2.1 = None /\ deleted_by d2.1 = None /\ deleted_id d2.1 = 0)
  /\ (doc_id d2.1 = doc_id self /\ fields d2.1 = fields self
      /\ doc_id d1.1 = doc_id self /\ fields d1.1 = fields self)
  /\ (pristine self -> d2.1 = self)
  /\ (exists s1,
        issued w d2.2 =
          [UpdateOne (id_filter self) s1;
           UpdateOne (id_filter self)
             {[ "deleted_at" := BNull; "deleted_by" := BNull;
                "deleted_id" := BInt 0 ]}]
        /\ dom s1 = soft_delete_fields
        /\ dom restore_set = soft_delete_fields)
  /\ (forall i d d' k,
        collection w !! i = Some d ->
        collection d2.2 !! i = Some d' ->
        k ∉ soft_delete_fields ->
        d' !! k = d !! k).
Proof.
  intros Hlive d1 d2.
  pose proof (delete_result_deleted self by_ w) as Hdel1. fold d1 in Hdel1.
  assert (Hd1 : d1 =
    ({| doc_id := doc_id self; deleted_at := Some (get_now_with_timezone w);
        deleted_by := by_;
        deleted_id := match doc_id self with
                      | Some i => Z.abs (py_hash i) | None => 0 end;
        fields := fields self |},
     call match_cond (UpdateOne (id_filter self)
       (soft_delete_set (get_now_with_timezone w) by_
          match doc_id self with Some i => Z.abs (py_hash i) | None => 0 end)) w)).
  { subst d1. unfold delete. by rewrite Hlive. }
  assert (Hd2 : d2 =
    ({| doc_id := doc_id self; deleted_at := None; deleted_by := None;
        deleted_id := 0; fields := fields self |},
     call match_cond (UpdateOne (id_filter d1.1) restore_set) d1.2)).
  { subst d2. unfold restore. rewrite Hdel1. simpl. by rewrite Hd1. }
  rewrite Hd2. simpl. split; [done|]. split.
  { by rewrite Hd1. }
  split.
  { intros (Ha & Hb & Hc). destruct self; simpl in *. by subst. }
  split.
  { eexists. split; [|split; [apply soft_delete_set_dom | apply restore_set_dom]].
    rewrite Hd1. unfold issued. simpl.
    rewrite <- app_assoc. by rewrite drop_app_length. }
  intros i d d' k Hi Hi' Hk.
  rewrite Hd1 in Hi'. simpl in Hi'.
  set (s1 := soft_delete_set _ _ _) in Hi'.
  pose proof (update_first_pointwise match_cond (id_filter self) s1 (collection w)) as F1.
  pose proof (update_first_pointwise match_cond (id_filter self) restore_set
                (update_first match_cond (id_filter self) s1 (collection w))) as F2.
  destruct (Forall2_lookup_l _ _ _ _ _ F1 Hi) as (dm & Hm & U1).
  destruct (Forall2_lookup_l _ _ _ _ _ F2 Hm) as (d2' & Hm2 & U2).
  assert (d2' = d') by (unfold id_filter in *; simpl in *; congruence). subst d2'.
  assert (E1 : dm !! k = d !! k).
  { destruct U1 as [-> | [_ ->]]; [done|]. apply apply_set_other.
    subst s1. by rewrite soft_delete_set_dom. }
  assert (E2 : d' !! k = dm !! k).
  { destruct U2 as [-> | [_ ->]]; [done|]. apply apply_set_other.
    by rewrite restore_set_dom. }
  congruence.
Qed.

End Instance_methods.

(** ** Bulk operations *)

Section Class_methods.
Context `{RT : Runtime}.
Variable match_cond : string -> bson -> bdoc -> bool.

(** The server reads the entry [deleted_at: None] as "the field is null or
    absent". *)
Hypothesis match_deleted_at_null :
  forall d, match_cond "deleted_at" BNull d = doc_live d.

Lemma matches_insert_fresh (q : query) (k : string) (v : bson) (d : bdoc) :
  q !! k = None ->
  matches match_cond (<[k := v]> q) d = true
  <-> match_cond k v d = true /\ matches match_cond q d = true.
Proof.
  intros Hk. unfold matches. rewrite !bool_decide_eq_true.
  by rewrite map_Forall_insert.
Qed.

Lemma final_filter_live_only (q : query) (d : bdoc) :
  q !! "deleted_at" = None ->
  matches match_cond (soft_delete_filter q false) d = true
  <-> matches match_cond q d = true /\ doc_live d = true.
Proof using match_deleted_at_null.
  intros Hq. unfold soft_delete_filter. simpl.
  rewrite (bool_decide_eq_false_2 ("deleted_at" ∈ dom q)); simpl.
  - rewrite matches_insert_fresh by done. rewrite match_deleted_at_null. tauto.
  - rewrite elem_of_dom, Hq. by intros [? ?].
Qed.

Lemma soft_delete_set_lookups (now : datetime) (by_ : option string) (did : Z) (d : bdoc) :
  let d' := apply_set (soft_delete_set now by_ did) d in
  d' !! "deleted_at" = Some (BDate now)
  /\ d' !! "deleted_by" = Some (bson_of_str by_)
  /\ d' !! "deleted_id" = Some (BInt did)
  /\ (forall k, k ∉ soft_delete_fields -> d' !! k = d !! k).
Proof.
  intros d'. subst d'. rewrite !apply_set_lookup. unfold soft_delete_set.
  repeat split; try done.
  intros k Hk. apply apply_set_other. fold (soft_delete_set now by_ did).
  by rewrite soft_delete_set_dom.
Qed.

Lemma restore_set_lookups (d : bdoc) :
  let d' := apply_set restore_set d in
  d' !! "deleted_at" = Some BNull
  /\ d' !! "deleted_by" = Some BNull
  /\ d' !! "deleted_id" = Some (BInt 0)
  /\ (forall k, k ∉ soft_delete_fields -> d' !! k = d !! k).
Proof.
  intros d'. subst d'. rewrite !apply_set_lookup. unfold restore_set.
  repeat split; try done.
  intros k Hk. apply apply_set_other. fold restore_set.
  by rewrite restore_set_dom.
Qed.

Lemma marked_doc_not_live (now : datetime) (by_ : option string) (did : Z) (d : bdoc) :
  doc_live (apply_set (soft_delete_set now by_ did) d) = false.
Proof.
  unfold doc_live.
  destruct (soft_delete_set_lookups now by_ did d) as (-> & _). done.
Qed.

Lemma marked_doc_sentinel (now : datetime) (by_ : option string) (did : Z) (d : bdoc) :
  doc_sentinel_when_live (apply_set (soft_delete_set now by_ did) d).
Proof.
  unfold doc_sentinel_when_live. by rewrite marked_doc_not_live.
Qed.

Lemma restored_doc_sentinel (d : bdoc) :
  doc_sentinel_when_live (apply_set restore_set d).
Proof.
  intros _. by destruct (restore_set_lookups d) as (_ & _ & -> & _).
Qed.

Lemma updated_by_preserves (P : bdoc -> Prop) (q : query) (s : bdoc) (c c' : list bdoc) :
  (forall d, P (apply_set s d)) ->
  Forall2 (updated_by match_cond q s) c c' ->
  Forall P c -> Forall P c'.
Proof.
  intros Hs Hf. induction Hf as [|d d' c c' Hd _ IH]; [done|].
  intros [Hd0 Hc]%Forall_cons. constructor; [|by apply IH].
  destruct Hd as [-> | [_ ->]]; [done | apply Hs].
Qed.

(** The four soft operations keep the convention "live means
    [deleted_id = 0]" on every stored document. *)
Lemma soft_operations_keep_sentinel
    (self : Document) (q : query) (by_ : option string) (w : world) :
  Forall doc_sentinel_when_live (collection w) ->
  Forall doc_sentinel_when_live (collection (delete match_cond self by_ w).2)
  /\ Forall doc_sentinel_when_live (collection (restore match_cond self w).2)
  /\ Forall doc_sentinel_when_live (collection (delete_many match_cond q by_ w).2)
  /\ Forall doc_sentinel_when_live (collection (restore_many match_cond q w).2).
Proof.
  intros Hc. repeat split.
  - unfold delete. destruct (is_deleted self); simpl; [done|].
    eapply updated_by_preserves;
      [apply marked_doc_sentinel | apply update_first_pointwise | done].
  - unfold restore. destruct (is_deleted self); simpl; [|done].
    eapply updated_by_preserves;
      [apply restored_doc_sentinel | apply update_first_pointwise | done].
  - unfold delete_many; simpl.
    eapply updated_by_preserves;
      [apply marked_doc_sentinel | apply update_all_updated_by | done].
  - unfold restore_many; simpl.
    eapply updated_by_preserves;
      [apply restored_doc_sentinel | apply update_all_updated_by | done].
Qed.

Lemma delete_many_pointwise (q : query) (by_ : option string) (w : world) :
  q !! "deleted_at" = None ->
  Forall2 (bulk_marked match_cond q (get_now_with_timezone w) by_)
          (collection w) (collection (delete_many match_cond q by_ w).2).
Proof using match_deleted_at_null.
  intros Hq. unfold delete_many; simpl.
  eapply Forall2_impl; [apply update_all_pointwise|].
  intros d d' ->. unfold bulk_marked.
  destruct (matches match_cond (soft_delete_filter q false) d) eqn:Hm.
  - apply final_filter_live_only in Hm as [-> ->]; [|done]. simpl.
    apply soft_delete_set_lookups.
  - destruct (matches match_cond q d && doc_live d) eqn:Hb; [|done].
    apply andb_true_iff in Hb.
    apply final_filter_live_only in Hb; [congruence | done].
Qed.

End Class_methods.

(** ** The unique index on (business key, [deleted_id]) *)

Section Unique_index.
Context `{RT : Runtime}.
Variable match_cond : string -> bson -> bdoc -> bool.
Hypothesis match_deleted_at_null :
  forall d, match_cond "deleted_at" BNull d = doc_live d.

Lemma NoDup_fmap_inj_on {A B} (g : A -> B) (l : list A) :
  NoDup (g <$> l) -> forall x y, x ∈ l -> y ∈ l -> g x = g y -> x = y.
Proof.
  induction l as [|a l IH]; simpl; intros Hnd x y Hx Hy Hg.
  - by apply elem_of_nil in Hx.
  - apply NoDup_cons in Hnd as [Ha Hnd].
    apply elem_of_cons in Hx as [-> | Hx]; apply elem_of_cons in Hy as [-> | Hy].
    + done.
    + exfalso. apply Ha. rewrite Hg. by apply list_elem_of_fmap_2.
    + exfalso. apply Ha. rewrite <- Hg. by apply list_elem_of_fmap_2.
    + by apply IH.
Qed.

Lemma index_entry_marked (key : string) (now : datetime) (by_ : option string)
    (did : Z) (d : bdoc) :
  key ∉ soft_delete_fields ->
  index_entry key (apply_set (soft_delete_set now by_ did) d)
  = (d !! key, Some (BInt did)).
Proof.
  intros Hk. unfold index_entry.
  destruct (soft_delete_set_lookups now by_ did d) as (_ & _ & -> & Ho).
  by rewrite Ho.
Qed.

(** When a bulk deletion stamps a value that no stored document carries
    yet, an index that was unique stays unique: the live records it marks
    had distinct business keys, and the stamp separates them from every
    record deleted before. *)
Lemma delete_many_keeps_unique_index
    (key : string) (q : query) (by_ : option string) (w : world) :
  key ∉ soft_delete_fields ->
  q !! "deleted_at" = None ->
  Forall doc_sentinel_when_live (collection w) ->
  unique_index key (collection w) ->
  (forall d, d ∈ collection w ->
     d !! "deleted_id" <> Some (BInt (timestamp_micros (get_now_with_timezone w)))) ->
  unique_index key (collection (delete_many match_cond q by_ w).2).
Proof using match_deleted_at_null.
  intros Hkey Hq Hsent Huniq Hfresh.
  unfold delete_many; simpl. unfold unique_index, update_all.
  rewrite <- list_fmap_compose.
  apply NoDup_fmap_2_strong; [|by eapply NoDup_fmap_1].
  set (now := get_now_with_timezone w) in *.
  set (s := soft_delete_set now by_ (timestamp_micros now)).
  assert (Hlive : forall d, d ∈ collection w ->
            matches match_cond (soft_delete_filter q false) d = true ->
            d !! "deleted_id" = Some (BInt 0)).
  { intros d Hd Hm. apply final_filter_live_only in Hm as [_ Hl]; [|done|done].
    rewrite Forall_forall in Hsent. by apply Hsent. }
  intros x y Hx Hy. unfold compose.
  destruct (matches match_cond (soft_delete_filter q false) x) eqn:Hmx;
    destruct (matches match_cond (soft_delete_filter q false) y) eqn:Hmy.
  - subst s. rewrite !index_entry_marked by done. intros [= Hk].
    eapply (NoDup_fmap_inj_on (index_entry key)); [exact Huniq|done|done|].
    unfold index_entry. rewrite Hk.
    by rewrite (Hlive x Hx Hmx), (Hlive y Hy Hmy).
  - subst s. rewrite index_entry_marked by done. unfold index_entry.
    intros [= _ Hid]. exfalso. exact (Hfresh y Hy (eq_sym Hid)).
  - subst s. rewrite index_entry_marked by done. unfold index_entry.
    intros [= _ Hid]. exfalso. exact (Hfresh x Hx Hid).
  - intros Heq. by eapply (NoDup_fmap_inj_on (index_entry key)).
Qed.

End Unique_index.

(** ** The claims on bulk deletion and on the discriminator *)

Section Bulk_claims.
Context `{RT : Runtime}.
Variable match_cond : string -> bson -> bdoc -> bool.
Hypothesis match_deleted_at_null :
  forall d, match_cond "deleted_at" BNull d = doc_live d.


(** C1 (amended): live documents carry the sentinel [deleted_id = 0]: an
    object is created with it, [restore] writes it back, and the four soft
    operations keep it on every stored document.  [delete] gives a live
    object the absolute hash of its key, or 0 again when the object has no
    key; [delete_many] gives all documents it marks in one call the same
    microsecond stamp.  A unique index on (business key, [deleted_id])
    therefore survives a bulk deletion whenever the stamp is a value that
    no stored document carries yet. *)
Theorem deleted_id_discriminates_up_to_collisions (key : string) :
  (forall i fs, sentinel_when_live (new_document i fs))
  /\ (forall self by_ w,
        sentinel_when_live (delete match_cond self by_ w).1
        /\ (sentinel_when_live self -> sentinel_when_live (restore match_cond self w).1)
        /\ (is_deleted self = true -> deleted_id (restore match_cond self w).1 = 0))
  /\ (forall self q by_ w,
        Forall doc_sentinel_when_live (collection w) ->
        Forall doc_sentinel_when_live (collection (delete match_cond self by_ w).2)
        /\ Forall doc_sentinel_when_live (collection (restore match_cond self w).2)
        /\ Forall doc_sentinel_when_live (collection (delete_many match_cond q by_ w).2)
        /\ Forall doc_sentinel_when_live (collection (restore_many match_cond q w).2))
  /\ (forall self by_ w,
        is_deleted self = false ->
        deleted_id (delete match_cond self by_ w).1 = single_deleted_id self
        /\ (forall i, doc_id self = Some i ->
              deleted_id (delete match_cond self by_ w).1 = Z.abs (py_hash i))
        /\ (doc_id self = None -> deleted_id (delete match_cond self by_ w).1 = 0))
  /\ (forall q by_ w,
        q !! "deleted_at" = None ->
        Forall2 (bulk_marked match_cond q (get_now_with_timezone w) by_)
          (collection w) (collection (delete_many match_cond q by_ w).2))
  /\ (forall q by_ w,
        key ∉ soft_delete_fields ->
        q !! "deleted_at" = None ->
        Forall doc_sentinel_when_live (collection w) ->
        unique_index key (collection w) ->
        (forall d, d ∈ collection w ->
           d !! "deleted_id"
           <> Some (BInt (timestamp_micros (get_now_with_timezone w)))) ->
        unique_index key (collection (delete_many match_cond q by_ w).2)).
Proof using match_deleted_at_null.
  split; [by intros i fs _|]. split.
  { intros self by_ w. split; [|split].
    - intros Hl. by rewrite delete_result_deleted in Hl.
    - intros Hs. unfold restore. by destruct (is_deleted self).
    - intros Hd. unfold restore. by rewrite Hd. }
  split.
  { intros self q by_ w. apply soft_operations_keep_sentinel. }
  split.
  { intros self by_ w Hl. unfold delete, single_deleted_id. rewrite Hl. simpl.
    split; [done|]. split; [by intros i -> | by intros ->]. }
  split.
  { intros q by_ w Hq. by apply delete_many_pointwise. }
  intros q by_ w. by apply delete_many_keeps_unique_index.
Qed.

End Bulk_claims.

(** ** The statements at sample inputs *)

Lemma sample_match_deleted_at_null (d : bdoc) :
  Sample.match_cond "deleted_at" BNull d = doc_live d.
Proof. reflexivity. Defined.

Lemma delete_restore_noop_witness :
  is_deleted (Sample.saved_a) = false
  /\ restore Sample.match_cond Sample.saved_a (Sample.world0 [Sample.live_a])
     = (Sample.saved_a, Sample.world0 [Sample.live_a]).
Proof.
  split; [reflexivity|].
  apply (proj1 (proj2 (delete_restore_noop_outside_precondition Sample.match_cond))).
  reflexivity.
Defined.

Lemma sample_match_id (i : string) (d : bdoc) :
  Sample.match_cond "_id" (BOid i) d = bool_decide (d !! "_id" = Some (BOid i)).
Proof.
  unfold Sample.match_cond. apply bool_decide_ext.
  destruct (d !! "_id") as [x|]; simpl; split; congruence.
Qed.


Example hard_delete_filter :
  issued (Sample.world0 [Sample.live_a])
    (hard_delete Sample.match_cond (fun args _ => args) Sample.saved_a
       (Sample.world0 [Sample.live_a])).2
  = [DeleteOne {[ "$and" := BArr [BDoc [("_id", BOid Sample.oid_a)];
                                  BDoc [("deleted_at", BNull)]] ]}].
Proof. vm_compute. reflexivity. Qed.

Lemma delete_then_restore_witness :
  is_deleted Sample.saved_a = false
  /\ pristine Sample.saved_a
  /\ (restore Sample.match_cond
        (delete Sample.match_cond Sample.saved_a (Some "admin")
           (Sample.world0 [Sample.live_a])).1
        (delete Sample.match_cond Sample.saved_a (Some "admin")
           (Sample.world0 [Sample.live_a])).2).1 = Sample.saved_a.
Proof.
  assert (Hl : is_deleted Sample.saved_a = false) by reflexivity.
  assert (Hp : pristine Sample.saved_a) by (repeat split).
  split; [exact Hl|]. split; [exact Hp|].
  exact (proj1 (proj2 (proj2
    (delete_then_restore_roundtrip Sample.match_cond Sample.saved_a
       (Some "admin") (Sample.world0 [Sample.live_a]) Hl))) Hp).
Defined.


(** C4: [delete_many] does not keep away from documents that are already
    soft-deleted when the caller's filter brings its own ["deleted_at"]
    entry.  The filter [{"deleted_at": {"$ne": None}}] is passed on
    unchanged, so the record that [alice] had soft-deleted is matched and
    its three audit fields are overwritten with the new time, the new
    operator and the new stamp. *)
Theorem delete_many_restamps_deleted_document :
  let q : query := {[ "deleted_at" := BDoc [("$ne", BNull)] ]} in
  let w := Sample.world0 [Sample.gone_a] in
  doc_live Sample.gone_a = false
  /\ issued w (delete_many Sample.match_cond q (Some "bob") w).2
     = [UpdateMany q (soft_delete_set Sample.now0 (Some "bob")
                        (timestamp_micros Sample.now0))]
  /\ collection (delete_many Sample.match_cond q (Some "bob") w).2
     = [Sample.stored Sample.oid_a "a@example.com" (BDate Sample.now0)
          (BStr "bob") (timestamp_micros Sample.now0)]
  /\ collection (delete_many Sample.match_cond q (Some "bob") w).2
     <> [Sample.gone_a].
Proof.
  split; [reflexivity|]. split; [vm_compute; reflexivity|].
  split; [vm_compute; reflexivity|].
  apply (bool_decide_unpack _). vm_compute. reflexivity.
Qed.

Lemma deleted_id_witness :
  ("email" ∉ soft_delete_fields)
  /\ unique_index "email"
       (collection
          (delete_many Sample.match_cond {[ "email" := BStr "a@example.com" ]}
             (Some "bob") (Sample.world0 [Sample.gone_a; Sample.live_a2])).2).
Proof.
  assert (Hk : "email" ∉ soft_delete_fields).
  { unfold soft_delete_fields. set_solver. }
  split; [exact Hk|].
  apply (proj2 (proj2 (proj2 (proj2 (proj2
    (deleted_id_discriminates_up_to_collisions Sample.match_cond
       sample_match_deleted_at_null "email")))))).
  - exact Hk.
  - reflexivity.
  - repeat constructor; intros Hl; by vm_compute in Hl.
  - apply (bool_decide_unpack _). by vm_compute.
  - intros d Hd. apply (bool_decide_unpack _).
    repeat (apply elem_of_cons in Hd as [-> | Hd]); [by vm_compute | by vm_compute|].
    by apply elem_of_nil in Hd.
Defined.

(** C1, as stated, fails in two ways.  An object without a key that is
    soft-deleted keeps [deleted_id = 0], the value of the live records.
    And a bulk deletion that reads the same clock value as an earlier one
    gives a second record with the same business key the same stamp, so
    the two deleted records collide in the index. *)
Lemma deleted_id_not_unique_counterexample :
  (let self' := (delete Sample.match_cond Sample.unsaved (Some "admin")
                   (Sample.world0 [])).1 in
   is_deleted self' = true /\ deleted_id self' = 0)
  /\ (let w := Sample.world0 [Sample.gone_same_clock; Sample.live_a2] in
      let q : query := {[ "email" := BStr "a@example.com" ]} in
      unique_index "email" (collection w)
      /\ Forall doc_sentinel_when_live (collection w)
      /\ ~ unique_index "email"
             (collection (delete_many Sample.match_cond q (Some "bob") w).2)).
Proof.
  split; [by vm_compute|]. split; [|split].
  - apply (bool_decide_unpack _). by vm_compute.
  - repeat constructor; intros Hl; by vm_compute in Hl.
  - intros Hu. apply (bool_decide_pack _) in Hu. by vm_compute in Hu.
Qed.

End SoftDeleteProofs.

(* ===================================================================== *)
(** * Properties of the datetime utilities                               *)
(* ===================================================================== *)

Module DatetimeProofs.
Import Py DatetimeUtils.

Section Conversions.
Context `{RT : Runtime}.

Lemma same_zone_object_eq (a b : tzinfo_t) :
  same_zone_object a b = true -> a = b.
Proof.
  destruct a as [k|o], b as [k'|o']; simpl; try done.
  intros Hk%bool_decide_eq_true. by subst.
Qed.

Lemma astimezone_tzinfo (dt dt' : datetime) (tz : tzinfo_t) :
  astimezone dt tz = Ok dt' -> tzinfo dt' = Some tz.
Proof.
  unfold astimezone, mbind, result_bind, rbind.
  destruct (tzinfo dt) as [my|] eqn:Hmy.
  - unfold Ok at 1. cbv beta iota.
    destruct (same_zone_object tz my) eqn:Hs.
    + intros [= <-]. by rewrite (same_zone_object_eq _ _ Hs).
    + destruct (negb (in_range _)); [done|].
      destruct (in_range _); [|done]. by intros [= <-].
  - destruct (local_timezone (wall dt)) as [e|o]; [done|].
    unfold Ok at 1. cbv beta iota.
    destruct (same_zone_object tz (FixedOffset o)) eqn:Hs.
    + by destruct tz.
    + destruct (negb (in_range _)); [done|].
      destruct (in_range _); [|done]. by intros [= <-].
Qed.

Lemma astimezone_same_zone (dt : datetime) :
  tzinfo dt = Some timezone -> astimezone dt timezone = Ok dt.
Proof.
  intros Hz. unfold astimezone, mbind, result_bind, rbind. rewrite Hz.
  unfold Ok at 1. cbv beta iota.
  assert (Hs : same_zone_object timezone timezone = true).
  { unfold timezone, get_timezone. simpl. by apply bool_decide_eq_true_2. }
  by rewrite Hs.
Qed.

Lemma localized_isoformat_naive (dt : datetime) :
  tzinfo dt = None ->
  localized_isoformat dt = Ok (Some (isoformat (replace_tzinfo dt timezone))).
Proof.
  intros Hn. unfold localized_isoformat. rewrite Hn.
  by rewrite astimezone_same_zone.
Qed.

Lemma localized_isoformat_inv (dt : datetime) (r : option string) :
  localized_isoformat dt = Ok r ->
  exists dt', r = Some (isoformat dt') /\ tzinfo dt' = Some timezone.
Proof.
  unfold localized_isoformat.
  set (d := match tzinfo dt with None => _ | Some _ => _ end).
  destruct (astimezone d timezone) as [e|dt'] eqn:Ha; simpl; [done|].
  intros [= <-]. exists dt'. split; [done|]. by eapply astimezone_tzinfo.
Qed.

Lemma rbind_Ok_inv {A B} (m : result A) (k : A -> result B) (b : B) :
  m ≫= k = Ok b -> exists a, m = Ok a /\ k a = Ok b.
Proof. destruct m as [e|a]; simpl; [done | eauto]. Qed.


(** ** [to_timestamp_ms_universal] *)

Lemma try_except_handler_total {A} (m : M env A) (h : exn -> M env A) (w : env) :
  (forall e w', exists a, (h e w').1 = Ok a) ->
  exists a, (try_except m h w).1 = Ok a.
Proof.
  intros Hh. unfold try_except. destruct (m w) as [[e|a] w']; [apply Hh | eauto].
Qed.

Lemma universal_handler_total (e : exn) (w : env) :
  exists z : Z,
    ((logger_error universal_error_format e;; mret 0) w).1 = Ok z.
Proof. by exists 0. Qed.

(** The function returns an [int] on every input: whatever is raised
    inside is caught by the handler of the activation, which answers 0. *)
Lemma to_timestamp_ms_universal_total (v : pyval) (w : env) :
  exists z, (to_timestamp_ms_universal v w).1 = Ok z.
Proof.
  unfold to_timestamp_ms_universal. apply try_except_handler_total.
  apply universal_handler_total.
Qed.

Lemma to_timestamp_ms_universal_None (w : env) :
  to_timestamp_ms_universal VNone w = (Ok 0, w).
Proof. done. Qed.

Lemma to_timestamp_ms_universal_int (z : Z) (w : env) :
  (to_timestamp_ms_universal (VInt z) w).1
  = Ok (if bool_decide (10 ^ 12 <= z) then z else z * 1000).
Proof.
  unfold to_timestamp_ms_universal, try_except, lift. simpl.
  by destruct (bool_decide (10 ^ 12 <= z)).
Qed.

Lemma to_timestamp_ms_universal_float (f : float) (w : env) :
  (to_timestamp_ms_universal (VFloat f) w).1
  = Ok (handled (if PrimFloat.leb 1e12 f then int_of_float f
                 else int_of_float (PrimFloat.mul f 1000))).
Proof.
  unfold to_timestamp_ms_universal, try_except, lift. simpl.
  destruct (PrimFloat.leb 1e12 f).
  - by destruct (int_of_float f).
  - by destruct (int_of_float (PrimFloat.mul f 1000)).
Qed.

(** A string that [float()] rejects with [ValueError] and that
    [fromisoformat] rejects too is answered with the current time:
    [from_iso_format] catches the parse error, logs it and hands back
    [get_now_with_timezone()], whose millisecond stamp is returned. *)
Lemma to_timestamp_ms_universal_unparseable (s : string) (e : exn) (ms : Z) (w : env) :
  float_of_str s = Raise ValueError ->
  fromisoformat (normalize_utc_suffix s) = Raise e ->
  timestamp_millis (now_at (clock w)) = Ok ms ->
  to_timestamp_ms_universal (VStr s) w
  = (Ok ms,
     {| clock := clock w;
        log := log w ++ [LogRecord ERROR "[DateTimeUtils] from_iso_format - Error: %s"
                           (Some e)] |}).
Proof.
  intros Hf Hp Hms.
  unfold to_timestamp_ms_universal, try_except; simpl. rewrite Hf.
  unfold from_iso_format, try_except, mbind, M_bind, bind, lift; simpl.
  rewrite Hp. simpl.
  unfold get_now_with_timezone, gets, to_timestamp_ms. simpl. by rewrite Hms.
Qed.

End Conversions.

(** ** The statements at sample inputs *)

Example to_iso_format_utc_text :
  to_iso_format (VStr "2025-09-16T12:20:06+00:00")
  = Ok (Some "2025-09-16T20:20:06+08:00").
Proof. vm_compute. reflexivity. Qed.

Example to_iso_format_epoch_seconds :
  to_iso_format (VInt 1758025206) = Ok (Some "2025-09-16T20:20:06+08:00").
Proof. vm_compute. reflexivity. Qed.



(** C10: on the string ["not-a-date"], which neither [float()] nor
    [fromisoformat] accepts, the function does not return 0: it returns
    the millisecond stamp of the clock, here 2025-09-16T12:20:06Z. *)
Theorem to_timestamp_ms_universal_returns_now_on_failure :
  let w := {| clock := Sample.clock0; log := [] |} in
  (to_timestamp_ms_universal (VStr "not-a-date") w).1 = Ok 1758025206000
  /\ (to_timestamp_ms_universal (VStr "not-a-date") w).1 <> Ok 0
  /\ log (to_timestamp_ms_universal (VStr "not-a-date") w).2
     = [LogRecord ERROR "[DateTimeUtils] from_iso_format - Error: %s"
          (Some ValueError)].
Proof.
  intros w.
  rewrite (to_timestamp_ms_universal_unparseable "not-a-date" ValueError
             1758025206000 w); [|reflexivity|reflexivity|reflexivity].
  simpl. repeat split. discriminate.
Qed.

Example to_timestamp_ms_universal_seconds :
  (to_timestamp_ms_universal (VFloat 1.5) {| clock := 0; log := [] |}).1 = Ok 1500.
Proof. vm_compute. reflexivity. Qed.

Example to_timestamp_ms_universal_numeric_text :
  (to_timestamp_ms_universal (VStr "1.5") {| clock := 0; log := [] |}).1 = Ok 1500.
Proof. vm_compute. reflexivity. Qed.

End DatetimeProofs.

(* ===================================================================== *)
(** * Properties of the deletion service                                 *)
(* ===================================================================== *)

Module DeleteServiceProofs.
Import Py SoftDelete DeleteService.

Section Reraise.
Context {W : Type}.
Variable repo_delete_by_event_id : string -> option string -> Async W bool.
Variable repo_delete_by_user_id : string -> option string -> Async W nat.
Variable memcell_delete_many : query -> option string -> Async W (option UpdateResult).
Variable MAGIC_ALL : string.
Variable ObjectId : string -> result string.

Ltac run_failure H :=
  unfold try_except_Exception, mbind, Async_bind, async_bind, persistence, emit,
    async_modify, reraise, async_raise; simpl;
  rewrite H; simpl; unfold after_failure, after_cancellation;
  rewrite <- ?app_assoc; reflexivity.

(** C8 (amended): whenever the repository or the document class raises
    an exception derived from [Exception], each of the four methods
    writes one error record that carries the exception and raises that
    same exception; it returns no value, and the persistence layer is
    left as the failing call left it.  [asyncio.CancelledError], which
    derives from [BaseException] only, passes through the handler: the
    method raises it too and leaves the persistence layer as the call
    left it, but writes no error record. *)
Theorem failures_are_logged_and_reraised (s : state (W := W)) (e : exn) (w' : W) :
  (forall event_id by_,
      (repo_delete_by_event_id event_id by_ (store s) = (Raise (Exc e), w') ->
       delete_by_event_id repo_delete_by_event_id event_id by_ s
       = (Raise (Exc e),
          after_failure s w'
            "Deleting MemCell by event_id: event_id=%s, deleted_by=%s"
            "Failed to delete MemCell by event_id: event_id=%s, error=%s" e))
      /\ (repo_delete_by_event_id event_id by_ (store s) = (Raise CancelledError, w') ->
          delete_by_event_id repo_delete_by_event_id event_id by_ s
          = (Raise CancelledError,
             after_cancellation s w'
               "Deleting MemCell by event_id: event_id=%s, deleted_by=%s")))
  /\ (forall user_id by_,
      (repo_delete_by_user_id user_id by_ (store s) = (Raise (Exc e), w') ->
       delete_by_user_id repo_delete_by_user_id user_id by_ s
       = (Raise (Exc e),
          after_failure s w'
            "Deleting MemCells by user_id: user_id=%s, deleted_by=%s"
            "Failed to delete MemCells by user_id: user_id=%s, error=%s" e))
      /\ (repo_delete_by_user_id user_id by_ (store s) = (Raise CancelledError, w') ->
          delete_by_user_id repo_delete_by_user_id user_id by_ s
          = (Raise CancelledError,
             after_cancellation s w'
               "Deleting MemCells by user_id: user_id=%s, deleted_by=%s")))
  /\ (forall group_id by_,
      (memcell_delete_many {[ "group_id" := BStr group_id ]} by_ (store s)
         = (Raise (Exc e), w') ->
       delete_by_group_id memcell_delete_many group_id by_ s
       = (Raise (Exc e),
          after_failure s w'
            "Deleting MemCells by group_id: group_id=%s, deleted_by=%s"
            "Failed to delete MemCells by group_id: group_id=%s, error=%s" e))
      /\ (memcell_delete_many {[ "group_id" := BStr group_id ]} by_ (store s)
           = (Raise CancelledError, w') ->
          delete_by_group_id memcell_delete_many group_id by_ s
          = (Raise CancelledError,
             after_cancellation s w'
               "Deleting MemCells by group_id: group_id=%s, deleted_by=%s")))
  /\ (forall event_id user_id group_id filter_dict filters_used,
      build_filter MAGIC_ALL ObjectId event_id user_id group_id
        = Ok (filter_dict, filters_used) ->
      filter_dict <> ∅ ->
      (memcell_delete_many filter_dict None (store s) = (Raise (Exc e), w') ->
       delete_by_combined_criteria memcell_delete_many MAGIC_ALL ObjectId
         event_id user_id group_id s
       = (Raise (Exc e),
          after_failure s w'
            "Deleting MemCells with combined criteria: filters=%s"
            "Failed to delete MemCells with combined criteria: filters=%s, error=%s" e))
      /\ (memcell_delete_many filter_dict None (store s) = (Raise CancelledError, w') ->
          delete_by_combined_criteria memcell_delete_many MAGIC_ALL ObjectId
            event_id user_id group_id s
          = (Raise CancelledError,
             after_cancellation s w'
               "Deleting MemCells with combined criteria: filters=%s"))).
Proof.
  split; [|split; [|split]].
  - intros event_id by_. split; intros H; unfold delete_by_event_id; run_failure H.
  - intros user_id by_. split; intros H; unfold delete_by_user_id; run_failure H.
  - intros group_id by_. split; intros H; unfold delete_by_group_id; run_failure H.
  - intros event_id user_id group_id fd fu Hb Hne.
    split; intros H;
      unfold delete_by_combined_criteria; rewrite Hb; unfold Ok; cbv beta iota;
      rewrite bool_decide_eq_false_2 by done; run_failure H.
Qed.

(** The one exception that is turned into a return value is the one of
    the [ObjectId] constructor, raised before any persistence call. *)
Lemma invalid_event_id_is_reported (s : state (W := W)) (e : exn)
    (event_id user_id group_id : option string) :
  build_filter MAGIC_ALL ObjectId event_id user_id group_id = Raise e ->
  delete_by_combined_criteria memcell_delete_many MAGIC_ALL ObjectId
    event_id user_id group_id s
  = (Ok {| filters := []; count := 0; success := false;
           error := Some ("Invalid event_id format: " +:+ format_event_id event_id) |},
     {| log := log s ++ [LogRecord ERROR "Invalid event_id format: %s, error: %s" (Some e)];
        store := store s |}).
Proof.
  intros Hb. unfold delete_by_combined_criteria. by rewrite Hb.
Qed.

End Reraise.

Lemma failures_are_logged_and_reraised_witness :
  Sample.memcell_delete_many (Some (Exc Sample.timeout)) {[ "group_id" := BStr "g1" ]}
    (Some "admin") (store Sample.service0)
  = (Raise (Exc Sample.timeout), store Sample.service0)
  /\ (delete_by_group_id (Sample.memcell_delete_many (Some (Exc Sample.timeout)))
        "g1" (Some "admin") Sample.service0).1
     = Raise (Exc Sample.timeout)
  /\ log (delete_by_group_id (Sample.memcell_delete_many (Some (Exc Sample.timeout)))
            "g1" (Some "admin") Sample.service0).2
     = [LogRecord INFO "Deleting MemCells by group_id: group_id=%s, deleted_by=%s" None;
        LogRecord ERROR "Failed to delete MemCells by group_id: group_id=%s, error=%s"
          (Some Sample.timeout)].
Proof.
  assert (H : Sample.memcell_delete_many (Some (Exc Sample.timeout))
                {[ "group_id" := BStr "g1" ]} (Some "admin") (store Sample.service0)
              = (Raise (Exc Sample.timeout), store Sample.service0)) by reflexivity.
  split; [exact H|].
  rewrite (proj1 (proj1 (proj2 (proj2
    (failures_are_logged_and_reraised
       (Sample.repo_delete_by_event_id (Some (Exc Sample.timeout)))
       (Sample.repo_delete_by_user_id (Some (Exc Sample.timeout)))
       (Sample.memcell_delete_many (Some (Exc Sample.timeout)))
       "__all__" Sample.object_id
       Sample.service0 Sample.timeout (store Sample.service0))))
    "g1" (Some "admin")) H).
  split; reflexivity.
Defined.

(** C8, as stated, fails when the task is cancelled while it awaits the
    store: the method raises [CancelledError] and its log holds the
    opening record and no error record. *)
Lemma cancellation_is_not_logged_counterexample :
  let out := delete_by_group_id (Sample.memcell_delete_many (Some CancelledError))
               "g1" (Some "admin") Sample.service0 in
  Sample.memcell_delete_many (Some CancelledError) {[ "group_id" := BStr "g1" ]}
    (Some "admin") (store Sample.service0)
  = (Raise CancelledError, store Sample.service0)
  /\ out.1 = Raise CancelledError
  /\ log out.2
     = [LogRecord INFO "Deleting MemCells by group_id: group_id=%s, deleted_by=%s" None]
  /\ Forall (fun r => log_level r <> ERROR) (log out.2).
Proof.
  split; [reflexivity|]. split; [reflexivity|]. split; [reflexivity|].
  by repeat constructor.
Qed.

Example delete_by_group_id_on_reachable_store :
  (delete_by_group_id (Sample.memcell_delete_many None) "g1" (Some "admin")
     Sample.service0).1 = Ok 0%nat.
Proof. vm_compute. reflexivity. Qed.

End DeleteServiceProofs.

(* ===================================================================== *)
(** * Properties of the request-log listener                             *)
(* ===================================================================== *)

Module RequestLogListenerProofs.
Import Py RequestLogListener.

Section Extraction.
Context `{CO : Collaborators}.

Lemma extract_group_id_documented (url_ : string) (bp : option json) :
  object_or_falsy bp ->
  _extract_group_id url_ bp = Ok (documented_group_id url_ bp).
Proof.
  unfold _extract_group_id, documented_group_id, body_field, object_or_falsy.
  destruct bp as [v|]; [|done].
  destruct v; intros Hv; try (rewrite Hv; done).
  destruct (truthy (JObj items)) eqn:Ht; simpl.
  - destruct (assoc "group_id" items) as [g|]; simpl; [|done].
    by destruct (truthy g).
  - destruct items; [done | simpl in Ht; done].
Qed.

Lemma extract_user_id_documented (url_ : string) (bp : option json)
    (headers_ : gmap string string) :
  object_or_falsy bp ->
  _extract_user_id url_ bp headers_ = Ok (documented_user_id url_ bp headers_).
Proof.
  unfold _extract_user_id, documented_user_id, body_field, object_or_falsy.
  assert (Hq : forall o : option string,
            match query_param url_ "user_id" with
            | Some u => Ok (Some u)
            | None => Ok o
            end
            = Ok match query_param url_ "user_id" with
                 | Some u => Some u
                 | None => o
                 end :> result (option string))
    by (intros o; by destruct (query_param url_ "user_id")).
  destruct bp as [v|]; [|by simpl].
  destruct v; intros Hv; try (rewrite Hv; by simpl).
  destruct (truthy (JObj items)) eqn:Ht; simpl.
  - destruct (assoc "user_id" items) as [a|]; simpl.
    + destruct (truthy a) eqn:Hta; simpl; [by rewrite Hta|].
      destruct (assoc "sender" items) as [b|]; simpl; [|done].
      by destruct (truthy b).
    + destruct (assoc "sender" items) as [b|]; simpl; [|done].
      by destruct (truthy b).
  - destruct items; [by simpl | simpl in Ht; done].
Qed.

(** A JSON body that is a truthy value other than an object makes the
    first [body_parsed.get] raise. *)
Lemma extract_group_id_non_object (url_ : string) (v : json) :
  truthy v = true -> (forall items, v <> JObj items) ->
  _extract_group_id url_ (Some v) = Raise AttributeError.
Proof.
  intros Ht Hno. unfold _extract_group_id. rewrite Ht.
  destruct v; try done. by destruct (Hno items).
Qed.

Lemma on_event_non_object_body (ev : RequestHistoryEvent) (v : json) (s : state) :
  _is_memories_request (url ev) = true ->
  _parse_body (body ev) = Ok (Some v) ->
  truthy v = true -> (forall items, v <> JObj items) ->
  on_event (RequestHistory ev) s
  = (Ok tt,
     {| saved := saved s;
        log := log s ++ [LogRecord ERROR
                           "保存 Memory 请求日志到 MongoDB 失败: url=%s, error=%s"
                           (Some AttributeError)] |}).
Proof.
  intros Hm Hp Ht Hno. unfold on_event. rewrite Hm. simpl.
  unfold _save_to_mongo, try_except_Exception, mbind, Async_bind, async_bind, sync. simpl.
  rewrite Hp. simpl.
  by rewrite (extract_group_id_non_object _ _ Ht Hno).
Qed.

Lemma on_event_other_request (ev : RequestHistoryEvent) (s : state) :
  _is_memories_request (url ev) = false ->
  saved (on_event (RequestHistory ev) s).2 = saved s.
Proof.
  intros Hm. unfold on_event. by rewrite Hm.
Qed.


End Extraction.

(** ** The statements at sample inputs *)

(** C6: a memories request whose body is the JSON array [[1]] and whose
    URL carries [group_id=g1] is not persisted, although the documented
    extraction finds the group id in the query string: the call
    [body_parsed.get] raises [AttributeError], which [_save_to_mongo]
    catches and logs.  The same request with the empty array as body is
    persisted. *)
Theorem on_event_drops_request_with_array_body :
  let ev := Sample.request "/api/v1/memories?group_id=g1" (Some "[1]") in
  let ev' := Sample.request "/api/v1/memories?group_id=g1" (Some "[]") in
  _is_memories_request (url ev) = true
  /\ _parse_body (body ev) = Ok (Some (JArr [JInt 1]))
  /\ documented_group_id (url ev) (Some (JArr [JInt 1])) = Some "g1"
  /\ on_event (RequestHistory ev) Sample.listener0
     = (Ok tt,
        {| saved := [];
           log := [LogRecord ERROR
                     "保存 Memory 请求日志到 MongoDB 失败: url=%s, error=%s"
                     (Some AttributeError)] |})
  /\ (exists r, saved (on_event (RequestHistory ev') Sample.listener0).2 = [r]
                /\ log_group_id r = "g1").
Proof.
  intros ev ev'.
  assert (Hm : _is_memories_request (url ev) = true) by (vm_compute; reflexivity).
  assert (Hp : _parse_body (body ev) = Ok (Some (JArr [JInt 1])))
    by (vm_compute; reflexivity).
  split; [exact Hm|]. split; [exact Hp|].
  split; [vm_compute; reflexivity|]. split.
  - rewrite (on_event_non_object_body ev (JArr [JInt 1]) Sample.listener0 Hm Hp);
      [reflexivity | reflexivity | discriminate].
  - eexists. split; vm_compute; reflexivity.
Qed.

Example on_event_object_body :
  exists r,
    saved (on_event (RequestHistory (Sample.request "/api/v1/memories"
                                       (Some Sample.object_body)))
             Sample.listener0).2 = [r]
    /\ log_group_id r = "g7"
    /\ log_user_id r = Some "u1"
    /\ log_request_id r = "evt-1".
Proof. eexists. repeat split; vm_compute; reflexivity. Qed.

Example on_event_other_path :
  saved (on_event (RequestHistory (Sample.request "/health" None))
           Sample.listener0).2 = [].
Proof. vm_compute. reflexivity. Qed.

End RequestLogListenerProofs.

(* ===================================================================== *)
(** * Further properties of the soft-delete mixin                        *)
(* ===================================================================== *)

Module SoftDeleteExtra.
Import Py SoftDelete SoftDeleteQueries SoftDeleteProofs.

Section Bulk.
Context `{RT : Runtime}.
Variable match_cond : string -> bson -> bdoc -> bool.
Variable _add_class_id_filter : list query -> bool -> list query.

(** How the server reads the two conditions on ["deleted_at"] that the
    mixin writes. *)
Hypothesis match_deleted_at_null :
  forall d, match_cond "deleted_at" BNull d = doc_live d.
Hypothesis match_deleted_at_not_null :
  forall d, match_cond "deleted_at" (BDoc [("$ne", BNull)]) d = negb (doc_live d).

(** How it reads the entry [_id: ObjectId(i)]. *)
Hypothesis match_id :
  forall i d, match_cond "_id" (BOid i) d = bool_decide (d !! "_id" = Some (BOid i)).

Lemma not_in_dom_lookup (q : query) (k : string) :
  q !! k = None -> bool_decide (k ∈ dom q) = false.
Proof.
  intros Hq. apply bool_decide_eq_false_2. rewrite elem_of_dom, Hq. by intros [? ?].
Qed.

Lemma restore_final_filter (q : query) (d : bdoc) :
  q !! "deleted_at" = None ->
  matches match_cond (<["deleted_at" := BDoc [("$ne", BNull)]]> q) d
  = matches match_cond q d && negb (doc_live d).
Proof using match_deleted_at_not_null.
  intros Hq. apply eq_true_iff_eq.
  rewrite (matches_insert_fresh match_cond q _ _ d Hq).
  rewrite match_deleted_at_not_null, andb_true_iff. tauto.
Qed.

(** [restore_many] with a filter that has no ["deleted_at"] entry sends
    one [update_many] restricted to soft-deleted documents: each
    soft-deleted document matching the filter gets the three fields reset
    to their defaults and keeps all its other fields, and every live
    document stays exactly as it is. *)
Theorem restore_many_restores_deleted_only (q : query) (w : world) :
  q !! "deleted_at" = None ->
  let w' := (restore_many match_cond q w).2 in
  issued w w' = [UpdateMany (<["deleted_at" := BDoc [("$ne", BNull)]]> q) restore_set]
  /\ Forall2 (fun d d' =>
                if matches match_cond q d && negb (doc_live d)
                then doc_pristine d' /\ doc_live d' = true
                     /\ (forall k, k ∉ soft_delete_fields -> d' !! k = d !! k)
                else d' = d)
             (collection w) (collection w')
  /\ (forall i d, collection w !! i = Some d -> doc_live d = true ->
        collection w' !! i = Some d).
Proof using match_deleted_at_not_null.
  intros Hq w'.
  assert (Hw : w' = call match_cond
                 (UpdateMany (<["deleted_at" := BDoc [("$ne", BNull)]]> q) restore_set) w).
  { subst w'. unfold restore_many, soft_delete_filter. simpl.
    by rewrite (not_in_dom_lookup q _ Hq). }
  assert (Hp : Forall2 (fun d d' =>
                if matches match_cond q d && negb (doc_live d)
                then doc_pristine d' /\ doc_live d' = true
                     /\ (forall k, k ∉ soft_delete_fields -> d' !! k = d !! k)
                else d' = d)
             (collection w) (collection w')).
  { rewrite Hw. simpl. eapply Forall2_impl; [apply update_all_pointwise|].
    intros d d' ->. rewrite (restore_final_filter q d Hq).
    destruct (matches match_cond q d && negb (doc_live d)); [|done].
    destruct (restore_set_lookups d) as (Ha & Hb & Hc & Ho).
    split; [done|]. split; [|done]. unfold doc_live. by rewrite Ha. }
  split; [rewrite Hw; apply issued_call|]. split; [exact Hp|].
  intros i d Hi Hl.
  destruct (Forall2_lookup_l _ _ _ _ _ Hp Hi) as (d' & Hi' & Hd).
  rewrite Hl, andb_false_r in Hd. by subst.
Qed.

Lemma filter_partition_length {A} (f : A -> bool) (l : list A) :
  (length (filter (fun x => f x = true) l)
   + length (filter (fun x => f x = false) l) = length l)%nat.
Proof.
  induction l as [|x l IH]; [done|].
  rewrite !filter_cons. destruct (f x) eqn:Hf; simpl.
  - destruct (decide (true = true)); [|done].
    destruct (decide (true = false)); [done|]. simpl. lia.
  - destruct (decide (false = true)); [done|].
    destruct (decide (false = false)); [|done]. simpl. lia.
Qed.

(** [hard_delete_many] hands the caller's filter to the collection as it
    is: exactly the documents matching it are removed, soft-deleted or
    not, the others stay in their order, and the number reported is the
    number of documents that disappeared. *)
Theorem hard_delete_many_removes_all_matching (q : query) (w : world) :
  let n := (hard_delete_many match_cond q w).1 in
  let w' := (hard_delete_many match_cond q w).2 in
  issued w w' = [DeleteMany q]
  /\ (forall d, d ∈ collection w' <-> d ∈ collection w /\ matches match_cond q d = false)
  /\ collection w' `sublist_of` collection w
  /\ (n + length (collection w') = length (collection w))%nat.
Proof.
  intros n w'. subst n w'. unfold hard_delete_many; simpl.
  split; [apply issued_call|]. split.
  { intros d. unfold remove_all. rewrite list_elem_of_filter. tauto. }
  split; [apply sublist_filter|].
  unfold count_matching, remove_all. apply filter_partition_length.
Qed.

Lemma live_doc_changes (now : datetime) (by_ : option string) (did : Z) (d : bdoc) :
  doc_live d = true -> apply_set (soft_delete_set now by_ did) d <> d.
Proof.
  intros Hl Heq. pose proof (marked_doc_not_live now by_ did d) as Hn.
  rewrite Heq in Hn. congruence.
Qed.

(** The [UpdateResult] of [delete_many], for a filter without a
    ["deleted_at"] entry: the documents matched are the live documents
    matching the caller's filter, and each of them is modified. *)
Theorem delete_many_counts (q : query) (by_ : option string) (w : world) :
  q !! "deleted_at" = None ->
  let r := (delete_many match_cond q by_ w).1 in
  matched_count r
  = length (filter (fun d => matches match_cond q d = true /\ doc_live d = true)
              (collection w))
  /\ modified_count r = matched_count r.
Proof using match_deleted_at_null.
  intros Hq r. subst r. unfold delete_many; simpl.
  unfold count_matching, count_modified. split.
  - f_equal. apply list_filter_iff. intros d.
    by apply (final_filter_live_only match_cond match_deleted_at_null).
  - f_equal. apply list_filter_iff. intros d. split; [tauto|].
    intros Hm. split; [done|].
    apply (final_filter_live_only match_cond match_deleted_at_null) in Hm as [_ Hl];
      [|done].
    by apply live_doc_changes.
Qed.

Lemma update_all_no_match (q : query) (s : bdoc) (c : list bdoc) :
  Forall (fun d => matches match_cond q d = false) c ->
  update_all match_cond q s c = c.
Proof.
  unfold update_all. induction 1 as [|d c Hd _ IH]; [done|].
  simpl. rewrite Hd. f_equal. exact IH.
Qed.

(** A second [delete_many] with the same filter, by whatever operator
    and at whatever later time, finds nothing left to mark: the
    collection stays as the first call left it and the counts are 0, so
    the first deletion's audit fields are kept. *)
Theorem delete_many_twice (q : query) (by1 by2 : option string) (w w2 : world) :
  q !! "deleted_at" = None ->
  collection w2 = collection (delete_many match_cond q by1 w).2 ->
  collection (delete_many match_cond q by2 w2).2 = collection w2
  /\ matched_count (delete_many match_cond q by2 w2).1 = 0%nat
  /\ modified_count (delete_many match_cond q by2 w2).1 = 0%nat.
Proof using match_deleted_at_null.
  intros Hq Hc.
  assert (Hno : Forall (fun d => matches match_cond (soft_delete_filter q false) d = false)
                  (collection w2)).
  { rewrite Hc. unfold delete_many; simpl. unfold update_all.
    apply Forall_fmap, Forall_forall. intros d _. simpl.
    destruct (matches match_cond (soft_delete_filter q false) d) eqn:Hm; [|done].
    apply not_true_is_false. intros Hm'.
    apply (final_filter_live_only match_cond match_deleted_at_null) in Hm' as [_ Hl];
      [|done].
    by rewrite marked_doc_not_live in Hl. }
  assert (Hz : count_matching match_cond (soft_delete_filter q false) (collection w2) = 0%nat).
  { unfold count_matching. clear Hc. induction Hno as [|d c Hd _ IH]; [done|].
    rewrite filter_cons. destruct (decide _) as [Ht|]; [congruence | done]. }
  split; [|split].
  - unfold delete_many; simpl. by apply update_all_no_match.
  - unfold delete_many; simpl. exact Hz.
  - unfold delete_many; simpl. unfold count_modified.
    clear Hc Hz. induction Hno as [|d c Hd _ IH]; [done|].
    rewrite filter_cons. destruct (decide _) as [[Ht _]|]; [congruence | done].
Qed.

Lemma update_first_split (q : query) (s : bdoc) (c : list bdoc) :
  (update_first match_cond q s c = c
   /\ Forall (fun x => matches match_cond q x = false) c)
  \/ exists l1 d l2,
       c = l1 ++ d :: l2
       /\ update_first match_cond q s c = l1 ++ apply_set s d :: l2
       /\ matches match_cond q d = true
       /\ Forall (fun x => matches match_cond q x = false) l1.
Proof.
  induction c as [|d c IH]; simpl; [by left|].
  destruct (matches match_cond q d) eqn:Hm.
  - right. exists [], d, c. by repeat split.
  - destruct IH as [[-> Hno] | (l1 & d0 & l2 & -> & -> & Hd0 & Hl1)].
    + left. split; [done | by constructor].
    + right. exists (d :: l1), d0, l2. repeat split; [done|].
      by constructor.
Qed.

(** [delete] on a live object changes at most one stored document.  For
    a saved object it is the first stored document whose [_id] is the
    object's primary key, and none when no stored document has that key.
    The unique index on (business key, [deleted_id]) survives whenever no
    stored document carries the value that [delete] assigns. *)
Theorem delete_keeps_unique_index
    (key : string) (self : Document) (by_ : option string) (w : world) :
  is_deleted self = false ->
  key ∉ soft_delete_fields ->
  unique_index key (collection w) ->
  (forall d, d ∈ collection w ->
     d !! "deleted_id" <> Some (BInt (single_deleted_id self))) ->
  let c' := collection (delete match_cond self by_ w).2 in
  unique_index key c'
  /\ (c' = collection w
      \/ exists l1 d l2,
           collection w = l1 ++ d :: l2
           /\ c' = l1 ++ apply_set (soft_delete_set (get_now_with_timezone w) by_
                                      (single_deleted_id self)) d :: l2)
  /\ (forall i, doc_id self = Some i ->
        (c' = collection w
         /\ Forall (fun x => x !! "_id" <> Some (BOid i)) (collection w))
        \/ exists l1 d l2,
             collection w = l1 ++ d :: l2
             /\ c' = l1 ++ apply_set (soft_delete_set (get_now_with_timezone w) by_
                                        (Z.abs (py_hash i))) d :: l2
             /\ d !! "_id" = Some (BOid i)
             /\ Forall (fun x => x !! "_id" <> Some (BOid i)) l1).
Proof using match_id.
  intros Hl Hkey Hu Hfresh c'. subst c'.
  unfold delete. rewrite Hl. simpl.
  fold (single_deleted_id self).
  set (s := soft_delete_set (get_now_with_timezone w) by_ (single_deleted_id self)).
  assert (Hnot : forall i l,
            Forall (fun x => matches match_cond {[ "_id" := BOid i ]} x = false) l ->
            Forall (fun x => x !! "_id" <> Some (BOid i)) l).
  { intros i l Hf. eapply Forall_impl; [exact Hf|]. intros x Hx. simpl in Hx.
    rewrite (matches_id match_cond match_id) in Hx.
    by apply bool_decide_eq_false in Hx. }
  destruct (update_first_split (id_filter self) s (collection w))
    as [[Hsame Hno] | (l1 & d & l2 & Hc & Hupd & Hm & Hl1)].
  { rewrite Hsame. split; [exact Hu|]. split; [left; reflexivity|].
    intros i Hi. left. split; [reflexivity|]. apply Hnot.
    revert Hno. unfold id_filter. rewrite Hi. intros Hno. exact Hno. }
  rewrite Hupd.
  split; [|split].
  2:{ right. exists l1, d, l2. split; [exact Hc | reflexivity]. }
  2:{ intros i Hi. right. exists l1, d, l2.
      split; [exact Hc|]. split.
      { subst s. unfold single_deleted_id. rewrite Hi. reflexivity. }
      revert Hm Hl1. unfold id_filter. rewrite Hi. simpl. intros Hm Hl1.
      split; [|exact (Hnot i l1 Hl1)].
      rewrite (matches_id match_cond match_id) in Hm.
      exact (proj1 (bool_decide_eq_true _) Hm). }
  unfold unique_index in *. rewrite Hc in Hu.
  rewrite fmap_app, fmap_cons in Hu |- *.
  apply NoDup_app in Hu as (Hn1 & Hdisj & Hn2).
  apply NoDup_cons in Hn2 as [Hd2 Hn2].
  assert (Hnew : forall x, x ∈ l1 ++ d :: l2 ->
            index_entry key x <> index_entry key (apply_set s d)).
  { intros x Hx. subst s. rewrite index_entry_marked by done.
    unfold index_entry. intros [= _ Hid].
    apply (Hfresh x); [by rewrite Hc | done]. }
  apply NoDup_app. split; [done|]. split.
  - intros e He [-> | He2]%elem_of_cons.
    + apply list_elem_of_fmap in He as (x & Hx & Hxl).
      apply (Hnew x); [apply elem_of_app; by left | done].
    + apply (Hdisj e He). by apply elem_of_cons; right.
  - apply NoDup_cons. split; [|done].
    intros (x & Hx & Hxl)%list_elem_of_fmap.
    apply (Hnew x); [apply elem_of_app; right; by apply elem_of_cons; right | done].
Qed.

(** ** The find methods *)

Lemma selects_app (a b : list query) (d : bdoc) :
  selects match_cond (a ++ b) d = selects match_cond a d && selects match_cond b d.
Proof. unfold selects. apply forallb_app. Qed.

Lemma selects_live_expression (d : bdoc) :
  selects match_cond [{[ "deleted_at" := BNull ]}] d = doc_live d.
Proof using match_deleted_at_null.
  unfold selects; simpl. rewrite andb_true_r.
  apply eq_true_iff_eq. rewrite <- insert_empty.
  rewrite (matches_insert_fresh match_cond ∅ _ _ d (lookup_empty _)).
  rewrite match_deleted_at_null. unfold matches.
  rewrite bool_decide_eq_true. split; [tauto|]. intros Hd. split; [done|].
  apply map_Forall_empty.
Qed.

(** [find_many] and [find_one] select exactly the live documents among
    those that [hard_find_many] and [hard_find_one] select, and a
    document that a soft deletion has marked is selected by neither
    [find_many] nor [find_one], whatever the caller's conditions. *)
Theorem find_selects_live_documents_only
    (args : list query) (with_children : bool) (c : list bdoc) :
  selected match_cond (find_many _add_class_id_filter args with_children) c
  = filter (fun d => doc_live d = true)
      (selected match_cond (hard_find_many _add_class_id_filter args with_children) c)
  /\ find_one _add_class_id_filter args with_children
     = find_many _add_class_id_filter args with_children
  /\ hard_find_one _add_class_id_filter args with_children
     = hard_find_many _add_class_id_filter args with_children
  /\ (forall d, d ∈ selected match_cond
                      (find_many _add_class_id_filter args with_children) c ->
        doc_live d = true)
  /\ (forall now by_ did d,
        selects match_cond (find_many _add_class_id_filter args with_children)
          (apply_set (soft_delete_set now by_ did) d) = false).
Proof using match_deleted_at_null.
  assert (Hs : forall d,
            selects match_cond (find_many _add_class_id_filter args with_children) d
            = selects match_cond (hard_find_many _add_class_id_filter args with_children) d
              && doc_live d).
  { intros d. unfold find_many, hard_find_many.
    by rewrite selects_app, selects_live_expression. }
  assert (He : selected match_cond (find_many _add_class_id_filter args with_children) c
    = filter (fun d => doc_live d = true)
        (selected match_cond (hard_find_many _add_class_id_filter args with_children) c)).
  { unfold selected. rewrite list_filter_filter. apply list_filter_iff.
    intros d. rewrite Hs, andb_true_iff. tauto. }
  split; [exact He|]. split; [done|]. split; [done|]. split.
  - intros d Hd. rewrite He in Hd. by apply list_elem_of_filter in Hd as [? _].
  - intros now by_ did d. rewrite Hs, marked_doc_not_live. apply andb_false_r.
Qed.

End Bulk.

(** [{**q, **get_soft_delete_filter(include_deleted)}] agrees with
    [apply_soft_delete_filter] whenever deleted documents are included or
    the caller's filter has no ["deleted_at"] entry; when the caller has
    one, the merge replaces it by [None] while [apply_soft_delete_filter]
    keeps the caller's condition. *)
Theorem merged_filter_agrees_unless_caller_has_deleted_at
    (q : query) (include_deleted : bool) :
  (include_deleted = true \/ q !! "deleted_at" = None ->
     dict_merge q (get_soft_delete_filter include_deleted)
     = soft_delete_filter q include_deleted)
  /\ (forall v, q !! "deleted_at" = Some v ->
        dict_merge q (get_soft_delete_filter false) !! "deleted_at" = Some BNull
        /\ soft_delete_filter q false !! "deleted_at" = Some v
        /\ (forall k, k <> "deleted_at" ->
              dict_merge q (get_soft_delete_filter false) !! k
              = soft_delete_filter q false !! k)).
Proof.
  assert (Hm : forall k, dict_merge q (get_soft_delete_filter false) !! k
                 = if bool_decide (k = "deleted_at") then Some BNull else q !! k).
  { intros k. unfold dict_merge, get_soft_delete_filter.
    case_bool_decide as Hk.
    - subst k. apply lookup_union_Some_l. apply lookup_singleton_eq.
    - rewrite lookup_union_r; [done|]. by apply lookup_singleton_ne. }
  split.
  - intros Hc. apply map_eq. intros k. rewrite soft_delete_filter_lookup.
    destruct include_deleted.
    + unfold dict_merge, get_soft_delete_filter.
      rewrite (left_id_L ∅ (∪)). rewrite bool_decide_eq_false_2; [done|]. naive_solver.
    + destruct Hc as [? | Hq]; [done|]. rewrite Hm.
      case_bool_decide as Hk.
      * subst k. by rewrite bool_decide_eq_true_2.
      * rewrite bool_decide_eq_false_2; [done|]. naive_solver.
  - intros v Hv. split; [|split].
    + by rewrite Hm.
    + rewrite soft_delete_filter_lookup.
      rewrite bool_decide_eq_false_2; [done|]. intros (_ & _ & ?). congruence.
    + intros k Hk. rewrite Hm, soft_delete_filter_lookup.
      rewrite (bool_decide_eq_false_2 (k = "deleted_at")) by done.
      rewrite bool_decide_eq_false_2; [done|]. naive_solver.
Qed.

(** ** The statements at sample inputs *)

Lemma sample_match_deleted_at_not_null (d : bdoc) :
  Sample.match_cond "deleted_at" (BDoc [("$ne", BNull)]) d = negb (doc_live d).
Proof. reflexivity. Defined.

Lemma restore_many_witness :
  (({[ "email" := BStr "a@example.com" ]} : query) !! "deleted_at" = None)
  /\ issued (Sample.world0 [Sample.gone_a; Sample.live_b])
       (restore_many Sample.match_cond {[ "email" := BStr "a@example.com" ]}
          (Sample.world0 [Sample.gone_a; Sample.live_b])).2
     = [UpdateMany (<["deleted_at" := BDoc [("$ne", BNull)]]>
                      {[ "email" := BStr "a@example.com" ]}) restore_set].
Proof.
  assert (Hq : ({[ "email" := BStr "a@example.com" ]} : query) !! "deleted_at" = None)
    by reflexivity.
  split; [exact Hq|].
  exact (proj1 (restore_many_restores_deleted_only Sample.match_cond
                  sample_match_deleted_at_not_null _
                  (Sample.world0 [Sample.gone_a; Sample.live_b]) Hq)).
Defined.

Lemma delete_many_counts_witness :
  (({[ "email" := BStr "a@example.com" ]} : query) !! "deleted_at" = None)
  /\ modified_count
       (delete_many Sample.match_cond {[ "email" := BStr "a@example.com" ]}
          (Some "bob") (Sample.world0 [Sample.live_a; Sample.live_b])).1
     = matched_count
         (delete_many Sample.match_cond {[ "email" := BStr "a@example.com" ]}
            (Some "bob") (Sample.world0 [Sample.live_a; Sample.live_b])).1.
Proof.
  assert (Hq : ({[ "email" := BStr "a@example.com" ]} : query) !! "deleted_at" = None)
    by reflexivity.
  split; [exact Hq|].
  exact (proj2 (delete_many_counts Sample.match_cond sample_match_deleted_at_null
                  _ (Some "bob") (Sample.world0 [Sample.live_a; Sample.live_b]) Hq)).
Defined.

Lemma delete_many_twice_witness :
  (({[ "email" := BStr "a@example.com" ]} : query) !! "deleted_at" = None)
  /\ matched_count
       (delete_many Sample.match_cond {[ "email" := BStr "a@example.com" ]}
          (Some "carol")
          (delete_many Sample.match_cond {[ "email" := BStr "a@example.com" ]}
             (Some "bob") (Sample.world0 [Sample.live_a; Sample.live_b])).2).1
     = 0%nat.
Proof.
  assert (Hq : ({[ "email" := BStr "a@example.com" ]} : query) !! "deleted_at" = None)
    by reflexivity.
  split; [exact Hq|].
  exact (proj1 (proj2
    (delete_many_twice Sample.match_cond sample_match_deleted_at_null
       _ (Some "bob") (Some "carol")
       (Sample.world0 [Sample.live_a; Sample.live_b]) _ Hq eq_refl))).
Defined.

Lemma delete_keeps_unique_index_witness :
  is_deleted Sample.saved_a = false
  /\ "email" ∉ soft_delete_fields
  /\ unique_index "email"
       (collection (delete Sample.match_cond Sample.saved_a (Some "admin")
                      (Sample.world0 [Sample.live_a; Sample.live_b])).2).
Proof.
  assert (Hl : is_deleted Sample.saved_a = false) by reflexivity.
  assert (Hk : "email" ∉ soft_delete_fields).
  { unfold soft_delete_fields. set_solver. }
  assert (Hu : unique_index "email" (collection
                 (Sample.world0 [Sample.live_a; Sample.live_b]))).
  { apply (bool_decide_unpack _). vm_compute. reflexivity. }
  assert (Hf : forall d, d ∈ collection (Sample.world0 [Sample.live_a; Sample.live_b]) ->
                 d !! "deleted_id" <> Some (BInt (single_deleted_id Sample.saved_a))).
  { intros d Hd. apply (bool_decide_unpack _).
    repeat (apply elem_of_cons in Hd as [-> | Hd]);
      [vm_compute; reflexivity | vm_compute; reflexivity|].
    by apply elem_of_nil in Hd. }
  split; [exact Hl|]. split; [exact Hk|].
  exact (proj1 (delete_keeps_unique_index Sample.match_cond sample_match_id
                  "email" Sample.saved_a (Some "admin")
                  (Sample.world0 [Sample.live_a; Sample.live_b]) Hl Hk Hu Hf)).
Defined.

Lemma find_selects_live_witness :
  selects Sample.match_cond
    (find_many (fun args _ => args) [{[ "email" := BStr "a@example.com" ]}] false)
    (apply_set (soft_delete_set Sample.now0 (Some "bob") 7) Sample.live_a)
  = false.
Proof.
  exact (proj2 (proj2 (proj2 (proj2
    (find_selects_live_documents_only Sample.match_cond (fun args _ => args)
       sample_match_deleted_at_null
       [{[ "email" := BStr "a@example.com" ]}] false [])))) Sample.now0 (Some "bob") 7
       Sample.live_a).
Defined.

Lemma merged_filter_witness :
  (({[ "status" := BStr "active" ]} : query) !! "deleted_at" = None)
  /\ dict_merge {[ "status" := BStr "active" ]} (get_soft_delete_filter false)
     = soft_delete_filter {[ "status" := BStr "active" ]} false.
Proof.
  assert (Hq : ({[ "status" := BStr "active" ]} : query) !! "deleted_at" = None)
    by reflexivity.
  split; [exact Hq|].
  apply (proj1 (merged_filter_agrees_unless_caller_has_deleted_at _ false)).
  by right.
Defined.

End SoftDeleteExtra.

(* ===================================================================== *)
(** * Further properties of the datetime utilities                       *)
(* ===================================================================== *)

Module DatetimeExtra.
Import Py DatetimeUtils DatetimeEffects DatetimeProofs.

Section Effects.
Context `{RT : Runtime}.

(** ** Computations that only log *)

Lemma log_only_lift {A} (r : result A) : log_only (lift r).
Proof. intros w. split; [done|]. exists []. by rewrite app_nil_r. Qed.

Lemma log_only_ret {A} (a : A) : log_only (mret a : M env A).
Proof. intros w. split; [done|]. exists []. by rewrite app_nil_r. Qed.

Lemma log_only_raise {A} (e : exn) : log_only (raise e : M env A).
Proof. intros w. split; [done|]. exists []. by rewrite app_nil_r. Qed.

Lemma log_only_gets {A} (f : env -> A) : log_only (gets f).
Proof. intros w. split; [done|]. exists []. by rewrite app_nil_r. Qed.

Lemma log_only_logger_error (fmt : string) (e : exn) :
  log_only (logger_error fmt e).
Proof.
  intros w. split; [done|]. eexists. split; [done|]. by repeat constructor.
Qed.

Lemma log_only_bind {A B} (m : M env A) (k : A -> M env B) :
  log_only m -> (forall a, log_only (k a)) -> log_only (m ≫= k).
Proof.
  intros Hm Hk w. unfold mbind, M_bind, bind.
  destruct (Hm w) as (Hc & l & Hl & Hf).
  destruct (m w) as [[e|a] w1] eqn:Hmw; simpl in *.
  - split; [done|]. eauto.
  - destruct (Hk a w1) as (Hc' & l' & Hl' & Hf').
    split; [congruence|]. exists (l ++ l'). split.
    + by rewrite Hl', Hl, app_assoc.
    + by apply Forall_app.
Qed.

Lemma log_only_try_except {A} (m : M env A) (h : exn -> M env A) :
  log_only m -> (forall e, log_only (h e)) -> log_only (try_except m h).
Proof.
  intros Hm Hh w. unfold try_except.
  destruct (Hm w) as (Hc & l & Hl & Hf).
  destruct (m w) as [[e|a] w1] eqn:Hmw; simpl in *.
  - destruct (Hh e w1) as (Hc' & l' & Hl' & Hf').
    split; [congruence|]. exists (l ++ l'). split.
    + by rewrite Hl', Hl, app_assoc.
    + by apply Forall_app.
  - split; [done|]. eauto.
Qed.

Lemma never_raises_try_except {A} (m : M env A) (h : exn -> M env A) :
  (forall e, never_raises (h e)) -> never_raises (try_except m h).
Proof.
  intros Hh w. unfold try_except.
  destruct (m w) as [[e|a] w1]; [apply Hh | by exists a].
Qed.

Lemma try_except_no_raise {A} (m : M env A) (h : exn -> M env A) (w : env) (a : A) :
  (m w).1 = Ok a -> try_except m h w = m w.
Proof.
  unfold try_except. destruct (m w) as [[e|a'] w1]; simpl; [done|done].
Qed.

Lemma universal_handler_log_only (e : exn) :
  log_only (logger_error universal_error_format e;; mret 0 : M env Z).
Proof.
  apply log_only_bind; [apply log_only_logger_error|]. intros _. apply log_only_ret.
Qed.

Lemma universal_handler_never_raises (e : exn) :
  never_raises (logger_error universal_error_format e;; mret 0 : M env Z).
Proof. intros w. by exists 0. Qed.

Lemma from_iso_format_log_only (v : pyval) (tz : option tzinfo_t) :
  log_only (from_iso_format v tz).
Proof.
  unfold from_iso_format. apply log_only_try_except.
  - apply log_only_bind; [apply log_only_lift|]. intros dt. apply log_only_lift.
  - intros e. apply log_only_bind; [apply log_only_logger_error|].
    intros _. apply log_only_gets.
Qed.

Lemma universal_of_number_log_only (n : num) : log_only (universal_of_number n).
Proof.
  unfold universal_of_number.
  apply log_only_try_except; [apply log_only_lift | apply universal_handler_log_only].
Qed.

Lemma universal_of_number_never_raises (n : num) : never_raises (universal_of_number n).
Proof.
  unfold universal_of_number.
  apply never_raises_try_except, universal_handler_never_raises.
Qed.

Lemma universal_string_branch_log_only (v : pyval) (s : string) :
  log_only (match float_of_str s with
            | inr f => universal_of_number (NFloat f)
            | inl ValueError =>
                dt ← from_iso_format v None; lift (to_timestamp_ms dt)
            | inl e => raise e
            end).
Proof.
  destruct (float_of_str s) as [e|f]; [|apply universal_of_number_log_only].
  destruct e; try apply log_only_raise.
  apply log_only_bind; [apply from_iso_format_log_only|].
  intros dt. apply log_only_lift.
Qed.

Lemma universal_of_str_log_only (s : string) : log_only (universal_of_str s).
Proof.
  unfold universal_of_str. apply log_only_try_except;
    [apply universal_string_branch_log_only | apply universal_handler_log_only].
Qed.

Lemma universal_of_str_never_raises (s : string) : never_raises (universal_of_str s).
Proof.
  unfold universal_of_str.
  apply never_raises_try_except, universal_handler_never_raises.
Qed.

(** [to_timestamp_ms_universal] never raises, whatever it is given; it
    leaves the clock alone and its only trace is error records appended
    to the log. *)
Theorem to_timestamp_ms_universal_safe (v : pyval) :
  never_raises (to_timestamp_ms_universal v)
  /\ log_only (to_timestamp_ms_universal v).
Proof.
  split.
  - unfold to_timestamp_ms_universal.
    apply never_raises_try_except, universal_handler_never_raises.
  - unfold to_timestamp_ms_universal.
    apply log_only_try_except; [|apply universal_handler_log_only].
    destruct v; try apply log_only_ret; simpl;
      try apply log_only_lift; try apply universal_string_branch_log_only.
    + destruct (as_number v) as [n|]; [apply log_only_lift|].
      destruct (as_str v) as [s|]; [apply universal_string_branch_log_only|].
      destruct (as_datetime v) as [d|]; [apply log_only_lift|].
      apply log_only_bind; [apply log_only_lift|].
      intros s. apply universal_of_str_log_only.
    + apply log_only_bind; [apply log_only_lift|].
      intros s. apply universal_of_str_log_only.
Qed.

(** ** Seconds and milliseconds *)

(** For an [int] from 10^9 on (2001-09-09 in seconds) the result is at
    least 10^12 and is a fixed point, and a value in seconds gives the
    same result as the same instant in milliseconds.  A positive value
    below 10^9 is scaled by 1000 again when the result is fed back. *)
Theorem seconds_and_milliseconds_agree (w w' : env) :
  (forall z, 10 ^ 9 <= z < 10 ^ 12 ->
     (to_timestamp_ms_universal (VInt z) w).1 = Ok (1000 * z)
     /\ (to_timestamp_ms_universal (VInt (1000 * z)) w').1 = Ok (1000 * z))
  /\ (forall z r, 10 ^ 9 <= z ->
        (to_timestamp_ms_universal (VInt z) w).1 = Ok r ->
        10 ^ 12 <= r /\ (to_timestamp_ms_universal (VInt r) w').1 = Ok r)
  /\ (forall z, 0 < z < 10 ^ 9 ->
        (to_timestamp_ms_universal (VInt z) w).1 = Ok (1000 * z)
        /\ (to_timestamp_ms_universal (VInt (1000 * z)) w').1 = Ok (1000000 * z)).
Proof.
  split; [|split].
  - intros z Hz. rewrite !to_timestamp_ms_universal_int.
    rewrite (bool_decide_eq_false_2 (10 ^ 12 <= z)) by lia.
    rewrite (bool_decide_eq_true_2 (10 ^ 12 <= 1000 * z)) by lia.
    split; f_equal; lia.
  - intros z r Hz. rewrite !to_timestamp_ms_universal_int.
    case_bool_decide as Hb; intros [= <-].
    + rewrite bool_decide_eq_true_2 by done. done.
    + rewrite (bool_decide_eq_true_2 (10 ^ 12 <= z * 1000)) by lia.
      split; [lia | done].
  - intros z Hz. rewrite !to_timestamp_ms_universal_int.
    rewrite (bool_decide_eq_false_2 (10 ^ 12 <= z)) by lia.
    rewrite (bool_decide_eq_false_2 (10 ^ 12 <= 1000 * z)) by lia.
    split; f_equal; lia.
Qed.

(** ** The recursive calls *)

Lemma as_str_not_number (v : pyval) (s : string) :
  as_str v = Some s -> as_number v = None /\ v <> VNone.
Proof.
  induction v; simpl; try done. intros Hs. split; [by apply IHv | done].
Qed.

(** The two recursive calls: a string that [float()] accepts gives what
    the float gives, and an object that is neither a number, a string nor
    a datetime gives what its [str()] gives (0 with one error record when
    [str()] raises).  [isinstance] lets instances of subclasses through:
    [True] counts as the integer 1 and an instance of a subclass gives
    what the plain value gives. *)
Theorem to_timestamp_ms_universal_recursion (w : env) :
  (forall v s f, as_str v = Some s -> float_of_str s = Ok f ->
     to_timestamp_ms_universal v w = to_timestamp_ms_universal (VFloat f) w)
  /\ (forall cls s,
        to_timestamp_ms_universal (VObject cls (Ok s)) w
        = to_timestamp_ms_universal (VStr s) w)
  /\ (forall cls e,
        to_timestamp_ms_universal (VObject cls (Raise e)) w
        = (Ok 0, {| clock := clock w;
                    log := log w ++ [LogRecord ERROR universal_error_format (Some e)] |}))
  /\ (forall b, (to_timestamp_ms_universal (VBool b) w).1
                = Ok (if b then 1000 else 0))
  /\ (forall cls v, v <> VNone ->
        to_timestamp_ms_universal (VSub cls v) w = to_timestamp_ms_universal v w).
Proof.
  split; [|split; [|split; [|split]]].
  - intros v s f Hs Hf.
    destruct (as_str_not_number v s Hs) as [Hn Hv].
    destruct (universal_of_number_never_raises (NFloat f) w) as [z Hz].
    transitivity (universal_of_number (NFloat f) w); [|done].
    unfold to_timestamp_ms_universal at 1. unfold try_except.
    destruct v; simpl in *; try done.
    + injection Hs as ->. rewrite Hf. unfold Ok in *. cbv beta iota.
      destruct (universal_of_number (NFloat f) w) as [[e|a] w1]; simpl in *; done.
    + rewrite Hn, Hs, Hf. unfold Ok in *. cbv beta iota.
      destruct (universal_of_number (NFloat f) w) as [[e|a] w1]; simpl in *; done.
  - intros cls s.
    destruct (universal_of_str_never_raises s w) as [z Hz].
    transitivity (universal_of_str s w); [|done].
    unfold to_timestamp_ms_universal at 1. unfold try_except. simpl.
    unfold mbind, M_bind, bind, lift. simpl.
    destruct (universal_of_str s w) as [[e|a] w1]; simpl in *; done.
  - intros cls e. done.
  - intros b. unfold to_timestamp_ms_universal, try_except, lift. simpl.
    rewrite bool_decide_eq_false_2 by (destruct b; lia).
    by destruct b.
  - intros cls v Hv. unfold to_timestamp_ms_universal. simpl.
    destruct v; try done.
Qed.

(** ** [from_iso_format] *)

(** [from_iso_format] never raises and always hands back a datetime that
    carries the configured zone.  Either nothing is logged, or exactly
    one error record is appended and the value handed back is the current
    time. *)
Theorem from_iso_format_always_localized
    (v : pyval) (target : option tzinfo_t) (w : env) :
  exists dt w',
    from_iso_format v target w = (Ok dt, w')
    /\ tzinfo dt = Some get_timezone
    /\ clock w' = clock w
    /\ (w' = w
        \/ exists e,
             log w' = log w ++ [LogRecord ERROR
                                  "[DateTimeUtils] from_iso_format - Error: %s" (Some e)]
             /\ dt = now_at (clock w)).
Proof.
  unfold from_iso_format, try_except, mbind, M_bind, bind, lift.
  match goal with
  | |- context [match ?parsed with inl _ => _ | inr _ => _ end] =>
      destruct parsed as [e|dt] eqn:Hp
  end; simpl.
  - do 2 eexists. split; [reflexivity|]. split; [done|]. split; [done|].
    right. by exists e.
  - set (d := match tzinfo dt with None => _ | Some _ => _ end).
    destruct (astimezone d get_timezone) as [e|dt'] eqn:Ha; simpl.
    + do 2 eexists. split; [reflexivity|]. split; [done|]. split; [done|].
      right. by exists e.
    + exists dt', w. split; [by destruct w|]. split; [by eapply astimezone_tzinfo|].
      split; [done | by left].
Qed.

(** A datetime that already carries the configured zone is handed back as
    it is, and a naive datetime keeps its calendar reading and receives
    the zone given as target, the configured one by default. *)
Theorem from_iso_format_datetime (d : datetime) (w : env) :
  (tzinfo d = Some get_timezone ->
     forall target, from_iso_format (VDatetime d) target w = (Ok d, w))
  /\ (tzinfo d = None ->
        from_iso_format (VDatetime d) None w
        = (Ok {| wall := wall d; tzinfo := Some get_timezone |}, w)).
Proof.
  split.
  - intros Hz target. unfold from_iso_format, try_except, mbind, M_bind, bind, lift.
    simpl. rewrite Hz.
    pose proof (astimezone_same_zone d Hz) as Ha. unfold timezone in Ha.
    rewrite Ha. by destruct w.
  - intros Hn. unfold from_iso_format, try_except, mbind, M_bind, bind, lift.
    simpl. rewrite Hn. simpl.
    pose proof (astimezone_same_zone (replace_tzinfo d get_timezone) eq_refl) as Ha.
    unfold timezone in Ha. rewrite Ha. by destruct w.
Qed.

(** ** [to_timezone] *)

(** [to_timezone] has no handler of its own.  When it returns, the
    datetime carries the requested zone, the configured one when none is
    given, and a datetime already in the configured zone is handed back
    unchanged.  For a naive datetime that the platform cannot place in
    local time the platform's exception propagates, and for an aware
    datetime of another zone whose UTC reading lies outside the calendar
    range [OverflowError] is raised. *)
Theorem to_timezone_carries_zone (dt : datetime) (tz : option tzinfo_t) :
  (forall dt', to_timezone dt tz = Ok dt' -> tzinfo dt' = Some (default timezone tz))
  /\ (tzinfo dt = Some timezone -> to_timezone dt None = Ok dt)
  /\ (forall e, tzinfo dt = None -> local_timezone (wall dt) = Raise e ->
        to_timezone dt tz = Raise e)
  /\ (forall z, tzinfo dt = Some z ->
        same_zone_object (default timezone tz) z = false ->
        in_range (wall dt - utcoffset z (wall dt)) = false ->
        to_timezone dt tz = Raise OverflowError).
Proof.
  split; [|split; [|split]].
  - intros dt' H. by eapply astimezone_tzinfo.
  - intros Hz. by apply astimezone_same_zone.
  - intros e Hn He. unfold to_timezone, astimezone, mbind, result_bind, rbind.
    by rewrite Hn, He.
  - intros z Hz Hs Hr. unfold to_timezone, astimezone, mbind, result_bind, rbind.
    rewrite Hz. unfold Ok at 1. cbv beta iota. by rewrite Hs, Hr.
Qed.

End Effects.

(** ** The suffix ["Z"] *)

Lemma append_nonempty (r : string) : r +:+ "Z" <> EmptyString.
Proof. by destruct r. Qed.

Lemma endswith_Z_append (s : string) : endswith_Z (s +:+ "Z") = true.
Proof.
  induction s as [|c r IH]; [done|].
  change (String c r +:+ "Z") with (String c (r +:+ "Z")).
  simpl. destruct (r +:+ "Z") eqn:Hr; [by destruct (append_nonempty r)|].
  exact IH.
Qed.

Lemma replace_Z_append (a b : string) :
  replace_Z (a +:+ b) = replace_Z a +:+ replace_Z b.
Proof.
  induction a as [|c r IH]; [done|].
  change (String c r +:+ b) with (String c (r +:+ b)). simpl.
  destruct (bool_decide (c = "Z"%char)); simpl; by rewrite IH.
Qed.

Lemma replace_Z_without_Z (s : string) : has_Z s = false -> replace_Z s = s.
Proof.
  induction s as [|c r IH]; [done|]. simpl.
  intros [Hc Hr]%orb_false_iff. rewrite Hc. by rewrite IH.
Qed.

Lemma endswith_Z_has_Z (s : string) : endswith_Z s = true -> has_Z s = true.
Proof.
  induction s as [|c r IH]; [done|]. simpl.
  destruct r; [intros ->; done|]. intros H. rewrite (IH H). apply orb_true_r.
Qed.

(** The normalisation applied before [fromisoformat]: a string ending in
    ["Z"] has every ["Z"] replaced by ["+00:00"], not only the last one; a
    string whose only ["Z"] is the final character gets exactly the suffix
    replaced; a string that does not end in ["Z"] is left as it is. *)
Theorem normalize_utc_suffix_spec (s : string) :
  normalize_utc_suffix (s +:+ "Z") = replace_Z s +:+ "+00:00"
  /\ (has_Z s = false -> normalize_utc_suffix (s +:+ "Z") = s +:+ "+00:00")
  /\ (endswith_Z s = false -> normalize_utc_suffix s = s)
  /\ (has_Z s = false -> normalize_utc_suffix s = s).
Proof.
  assert (H1 : normalize_utc_suffix (s +:+ "Z") = replace_Z s +:+ "+00:00").
  { unfold normalize_utc_suffix. rewrite endswith_Z_append.
    by rewrite replace_Z_append. }
  split; [exact H1|]. split; [|split].
  - intros Hs. by rewrite H1, replace_Z_without_Z.
  - intros He. unfold normalize_utc_suffix. by rewrite He.
  - intros Hs. unfold normalize_utc_suffix.
    destruct (endswith_Z s) eqn:He; [|done].
    apply endswith_Z_has_Z in He. congruence.
Qed.

Example normalize_inner_Z :
  normalize_utc_suffix "2025-09-16T12:20:06Z" = "2025-09-16T12:20:06+00:00"
  /\ normalize_utc_suffix "ZZ" = "+00:00+00:00".
Proof. split; reflexivity. Qed.

(** ** The statements at sample inputs *)

Lemma seconds_and_milliseconds_witness :
  (10 ^ 9 <= 1758025206 < 10 ^ 12)
  /\ (to_timestamp_ms_universal (VInt 1758025206) {| clock := 0; log := [] |}).1
     = Ok 1758025206000
  /\ (to_timestamp_ms_universal (VInt 1758025206000) {| clock := 0; log := [] |}).1
     = Ok 1758025206000.
Proof.
  assert (Hz : 10 ^ 9 <= 1758025206 < 10 ^ 12) by lia.
  split; [exact Hz|].
  exact (proj1 (seconds_and_milliseconds_agree (RT := Sample.runtime)
                  {| clock := 0; log := [] |} {| clock := 0; log := [] |})
           1758025206 Hz).
Defined.

Lemma to_timestamp_ms_universal_recursion_witness :
  as_str (VSub "Text" (VStr "1.5")) = Some "1.5"
  /\ float_of_str "1.5" = Ok 1.5%float
  /\ to_timestamp_ms_universal (VSub "Text" (VStr "1.5")) {| clock := 0; log := [] |}
     = to_timestamp_ms_universal (VFloat 1.5) {| clock := 0; log := [] |}.
Proof.
  assert (Hs : as_str (VSub "Text" (VStr "1.5")) = Some "1.5") by reflexivity.
  assert (Hf : float_of_str "1.5" = Ok 1.5%float) by reflexivity.
  split; [exact Hs|]. split; [exact Hf|].
  exact (proj1 (to_timestamp_ms_universal_recursion (RT := Sample.runtime)
                  {| clock := 0; log := [] |}) _ _ _ Hs Hf).
Defined.

Lemma from_iso_format_datetime_witness :
  tzinfo {| wall := Sample.wall_2025_09_16; tzinfo := None |} = None
  /\ (from_iso_format (VDatetime {| wall := Sample.wall_2025_09_16; tzinfo := None |})
        None {| clock := 0; log := [] |}).1
     = Ok {| wall := Sample.wall_2025_09_16; tzinfo := Some (ZoneInfo "Asia/Shanghai") |}.
Proof.
  assert (Hn : tzinfo {| wall := Sample.wall_2025_09_16; tzinfo := None |} = None)
    by reflexivity.
  split; [exact Hn|].
  rewrite (proj2 (from_iso_format_datetime (RT := Sample.runtime)
                    {| wall := Sample.wall_2025_09_16; tzinfo := None |}
                    {| clock := 0; log := [] |}) Hn).
  reflexivity.
Defined.

Lemma to_timezone_witness :
  to_timezone {| wall := Sample.wall_2025_09_16 - 8 * Sample.hour;
                 tzinfo := Some (FixedOffset 0) |} None
  = Ok {| wall := Sample.wall_2025_09_16; tzinfo := Some (ZoneInfo "Asia/Shanghai") |}
  /\ tzinfo {| wall := Sample.wall_2025_09_16; tzinfo := Some (ZoneInfo "Asia/Shanghai") |}
     = Some (default timezone None)
  /\ local_timezone (wall {| wall := MIN_WALL; tzinfo := None |}) = Raise ValueError
  /\ to_timezone {| wall := MIN_WALL; tzinfo := None |} None = Raise ValueError.
Proof.
  assert (Ht : to_timezone {| wall := Sample.wall_2025_09_16 - 8 * Sample.hour;
                              tzinfo := Some (FixedOffset 0) |} None
               = Ok {| wall := Sample.wall_2025_09_16;
                       tzinfo := Some (ZoneInfo "Asia/Shanghai") |})
    by (vm_compute; reflexivity).
  assert (Hr : local_timezone (wall {| wall := MIN_WALL; tzinfo := None |})
               = Raise ValueError) by (vm_compute; reflexivity).
  split; [exact Ht|]. split.
  - exact (proj1 (to_timezone_carries_zone (RT := Sample.runtime) _ None) _ Ht).
  - split; [exact Hr|].
    exact (proj1 (proj2 (proj2
             (to_timezone_carries_zone (RT := Sample.runtime)
                {| wall := MIN_WALL; tzinfo := None |} None)))
             ValueError eq_refl Hr).
Defined.

Lemma normalize_utc_suffix_witness :
  has_Z "2025-09-16T12:20:06" = false
  /\ normalize_utc_suffix ("2025-09-16T12:20:06" +:+ "Z")
     = "2025-09-16T12:20:06" +:+ "+00:00".
Proof.
  assert (Hs : has_Z "2025-09-16T12:20:06" = false) by reflexivity.
  split; [exact Hs|].
  exact (proj1 (proj2 (normalize_utc_suffix_spec "2025-09-16T12:20:06")) Hs).
Defined.

End DatetimeExtra.

(* ===================================================================== *)
(** * Further properties of the request-log listener                     *)
(* ===================================================================== *)

Module RequestLogListenerExtra.
Import Py RequestLogListener RequestLogListenerProofs.

Section Handler.
Context `{CO : Collaborators}.

Ltac leaf :=
  do 2 eexists; split; [reflexivity|]; simpl;
  split; [by left|];
  split; [first [left; reflexivity | right; eexists; reflexivity]|];
  first [ eexists; reflexivity
        | exists []; by rewrite app_nil_r
        | eexists; rewrite <- app_assoc; reflexivity ].




End Handler.

(** ** The statements at sample inputs *)




End RequestLogListenerExtra.

(* ===================================================================== *)
(** * Further properties of the deletion service                         *)
(* ===================================================================== *)

Module DeleteServiceExtra.
Import Py SoftDelete DeleteService Wiring.

Section Criteria.
Context {W : Type}.
Variable memcell_delete_many : query -> option string -> Async W (option UpdateResult).
Variable MAGIC_ALL : string.
Variable ObjectId : string -> result string.

Lemma given_None (x : option string) :
  given MAGIC_ALL x = None <-> ignored MAGIC_ALL x.
Proof.
  clear ObjectId memcell_delete_many.
  unfold given, ignored, truthy_str. destruct x as [v|]; [|tauto].
  repeat case_bool_decide; simpl; naive_solver.
Qed.

Lemma given_usable (v : string) :
  v <> "" -> v <> MAGIC_ALL -> given MAGIC_ALL (Some v) = Some v.
Proof.
  intros H1 H2. unfold given, truthy_str.
  by rewrite !bool_decide_eq_false_2.
Qed.

(** The filter as a function of the three criteria, once the event id
    has been converted. *)
Lemma build_filter_Ok_inv (ev u g : option string) (fd : query) (fu : list string) :
  build_filter MAGIC_ALL ObjectId ev u g = Ok (fd, fu) ->
  exists fd0 fu0,
    match given MAGIC_ALL ev with
    | Some e => exists oid, ObjectId e = Ok oid
                            /\ fd0 = {[ "_id" := BOid oid ]} /\ fu0 = ["event_id"]
    | None => fd0 = ∅ /\ fu0 = []
    end
    /\ fd = from_option (fun x => <["group_id" := BStr x]>) id (given MAGIC_ALL g)
              (from_option (fun x => <["user_id" := BStr x]>) id (given MAGIC_ALL u) fd0)
    /\ fu = fu0 ++ from_option (fun _ => ["user_id"]) [] (given MAGIC_ALL u)
                ++ from_option (fun _ => ["group_id"]) [] (given MAGIC_ALL g).
Proof.
  unfold build_filter, mbind, result_bind, rbind, Ok.
  destruct (given MAGIC_ALL ev) as [e|].
  - destruct (ObjectId e) as [err|oid]; [done|].
    destruct (given MAGIC_ALL u), (given MAGIC_ALL g); simpl; intros [= <- <-];
      eexists _, _; (split; [by exists oid|]); by rewrite <- ?app_assoc.
  - destruct (given MAGIC_ALL u), (given MAGIC_ALL g); simpl; intros [= <- <-];
      eexists _, _; (split; [done|]); by rewrite ?app_nil_r.
Qed.

Lemma build_filter_no_other_key (ev u g : option string) (fd : query)
    (fu : list string) (k : string) :
  build_filter MAGIC_ALL ObjectId ev u g = Ok (fd, fu) ->
  k <> "_id" -> k <> "user_id" -> k <> "group_id" -> fd !! k = None.
Proof.
  intros (fd0 & fu0 & H0 & -> & _)%build_filter_Ok_inv Hi Hu Hg.
  assert (fd0 !! k = None) as Hk.
  { destruct (given MAGIC_ALL ev); [|by destruct H0 as [-> _]].
    destruct H0 as (oid & _ & -> & _). by rewrite lookup_singleton_ne. }
  destruct (given MAGIC_ALL u), (given MAGIC_ALL g); simpl;
    rewrite ?lookup_insert_ne by done; exact Hk.
Qed.

(** [delete_by_combined_criteria] turns two situations into a returned
    dictionary with [success = False], and reaches the persistence layer
    in neither: all three criteria absent, empty or [MAGIC_ALL]; and an
    event id that [ObjectId] rejects, whatever the other two criteria
    are, in which case the error text ends with the event id. *)
Theorem combined_criteria_refusals (ev u g : option string) (s : state (W := W)) :
  (ignored MAGIC_ALL ev -> ignored MAGIC_ALL u -> ignored MAGIC_ALL g ->
   delete_by_combined_criteria memcell_delete_many MAGIC_ALL ObjectId ev u g s
   = (Ok {| filters := []; count := 0; success := false;
            error := Some "No deletion criteria provided" |},
      {| log := log s ++ [LogRecord WARNING
                            "No deletion criteria provided (all are MAGIC_ALL)" None];
         store := store s |}))
  /\ (forall v e,
        ev = Some v -> v <> "" -> v <> MAGIC_ALL -> ObjectId v = Raise e ->
        delete_by_combined_criteria memcell_delete_many MAGIC_ALL ObjectId ev u g s
        = (Ok {| filters := []; count := 0; success := false;
                 error := Some ("Invalid event_id format: " +:+ v) |},
           {| log := log s ++ [LogRecord ERROR "Invalid event_id format: %s, error: %s"
                                 (Some e)];
              store := store s |})).
Proof.
  split.
  - intros He%given_None Hu%given_None Hg%given_None.
    unfold delete_by_combined_criteria, build_filter. by rewrite He, Hu, Hg.
  - intros v e -> Hv Hm Ho.
    unfold delete_by_combined_criteria, build_filter.
    rewrite (given_usable v Hv Hm). unfold mbind, result_bind, rbind.
    by rewrite Ho.
Qed.

(** The filter handed to [MemCell.delete_many] holds exactly the
    criteria that are present, non-empty and different from [MAGIC_ALL],
    under the keys ["_id"], ["user_id"] and ["group_id"] and no other
    key; [filters_used] names them in the order event, user, group; and
    the filter is empty exactly when all three criteria are ignored. *)
Theorem build_filter_uses_given_criteria
    (ev u g : option string) (fd : query) (fu : list string) :
  build_filter MAGIC_ALL ObjectId ev u g = Ok (fd, fu) ->
  (forall x, given MAGIC_ALL x = None <-> ignored MAGIC_ALL x)
  /\ fd !! "user_id" = BStr <$> given MAGIC_ALL u
  /\ fd !! "group_id" = BStr <$> given MAGIC_ALL g
  /\ (forall oid, fd !! "_id" = Some (BOid oid)
        <-> exists e, given MAGIC_ALL ev = Some e /\ ObjectId e = Ok oid)
  /\ (fd !! "_id" = None <-> ignored MAGIC_ALL ev)
  /\ (forall k, k <> "_id" -> k <> "user_id" -> k <> "group_id" -> fd !! k = None)
  /\ fu = from_option (fun _ => ["event_id"]) [] (given MAGIC_ALL ev)
          ++ from_option (fun _ => ["user_id"]) [] (given MAGIC_ALL u)
          ++ from_option (fun _ => ["group_id"]) [] (given MAGIC_ALL g)
  /\ (fd = ∅ <-> ignored MAGIC_ALL ev /\ ignored MAGIC_ALL u /\ ignored MAGIC_ALL g).
Proof.
  intros Hb. split; [exact given_None|].
  pose proof (fun k => build_filter_no_other_key ev u g fd fu k Hb) as Hother.
  apply build_filter_Ok_inv in Hb as (fd0 & fu0 & H0 & -> & ->).
  rewrite <- !given_None.
  destruct (given MAGIC_ALL ev) as [e|].
  - destruct H0 as (oid & Ho & -> & ->).
    destruct (given MAGIC_ALL u), (given MAGIC_ALL g); simpl;
      repeat split; simplify_map_eq; try done;
      try (by intros ?; simplify_map_eq; eauto);
      try (by intros (? & [= <-] & ?); unfold Ok in *; congruence);
      try (by intros Hx; apply (f_equal (fun m : query => m !! "_id")) in Hx;
              simplify_map_eq);
      try (by intros (? & ? & ?)).
  - destruct H0 as [-> ->].
    destruct (given MAGIC_ALL u), (given MAGIC_ALL g); simpl;
      repeat split; simplify_map_eq; try done;
      try (by intros (? & ? & ?));
      try (by intros Hx; apply (f_equal (fun m : query => m !! "user_id")) in Hx;
              simplify_map_eq);
      try (by intros Hx; apply (f_equal (fun m : query => m !! "group_id")) in Hx;
              simplify_map_eq).
Qed.

End Criteria.

Section On_mixin.
Context `{RT : Runtime}.
Variable match_cond : string -> bson -> bdoc -> bool.
Variable MAGIC_ALL : string.
Variable ObjectId : string -> result string.

Hypothesis match_deleted_at_null :
  forall d, match_cond "deleted_at" BNull d = doc_live d.

(** What the class method [delete_many] reports as modified. *)
Lemma delete_many_modified_live (q : query) (by_ : option string) (w : world) :
  q !! "deleted_at" = None ->
  modified_count (delete_many match_cond q by_ w).1
  = length (filter (fun d => matches match_cond q d = true /\ doc_live d = true)
              (collection w)).
Proof using match_deleted_at_null.
  intros Hq. simpl.
  unfold count_modified. f_equal. apply list_filter_iff. intros d. split.
  - intros [Hm _].
    by apply (SoftDeleteProofs.final_filter_live_only match_cond match_deleted_at_null).
  - intros Hm. split.
    + by apply (SoftDeleteProofs.final_filter_live_only match_cond match_deleted_at_null).
    + destruct Hm as [_ Hl]. intros Heq.
      pose proof (SoftDeleteProofs.marked_doc_not_live
                    (get_now_with_timezone w) by_
                    (timestamp_micros (get_now_with_timezone w)) d) as Hn.
      rewrite Heq in Hn. congruence.
Qed.


(** [delete_by_combined_criteria] on top of the mixin, with at least one
    usable criterion: the documents marked are the live ones satisfying
    every usable criterion, their number is the count returned,
    [success] tells whether it is positive, and no operator is recorded
    ([deleted_by] is null), because the service calls [delete_many]
    without one. *)
Theorem combined_criteria_on_mixin
    (ev u g : option string) (fd : query) (fu : list string)
    (s : state (W := world)) :
  build_filter MAGIC_ALL ObjectId ev u g = Ok (fd, fu) ->
  fd <> ∅ ->
  let out := delete_by_combined_criteria (mixin_delete_many match_cond)
               MAGIC_ALL ObjectId ev u g s in
  let n := length (filter (fun d => matches match_cond fd d = true
                                    /\ doc_live d = true)
                     (collection (store s))) in
  out.1 = Ok {| filters := fu; count := n; success := bool_decide (0 < n)%nat;
                error := None |}
  /\ Forall2 (bulk_marked match_cond fd (get_now_with_timezone (store s)) None)
       (collection (store s)) (collection (store out.2))
  /\ log out.2
     = log s ++ [LogRecord INFO
                   "Deleting MemCells with combined criteria: filters=%s" None;
                 LogRecord INFO
                   "Successfully deleted MemCells: filters=%s, count=%d" None].
Proof using match_deleted_at_null.
  intros Hb Hne out n. subst out n.
  assert (Hq : fd !! "deleted_at" = None)
    by (by apply (build_filter_no_other_key MAGIC_ALL ObjectId ev u g fd fu)).
  pose proof (delete_many_modified_live fd None (store s) Hq) as Hcount.
  unfold delete_by_combined_criteria. rewrite Hb. unfold Ok. cbv beta iota.
  rewrite bool_decide_eq_false_2 by done.
  unfold try_except_Exception, mbind, Async_bind, async_bind, persistence, emit,
    async_modify, reraise, async_raise; simpl.
  simpl in Hcount. rewrite Hcount.
  split; [done|]. split.
  - exact (SoftDeleteProofs.delete_many_pointwise match_cond match_deleted_at_null
             fd None (store s) Hq).
  - by rewrite <- app_assoc.
Qed.

End On_mixin.

(** ** The statements at sample inputs *)

Lemma combined_criteria_refusals_witness :
  (ignored "__all__" (Some "__all__") /\ ignored "__all__" None
   /\ ignored "__all__" (Some ""))
  /\ Sample.object_id "not-an-id" = Raise (OtherError "InvalidId")
  /\ delete_by_combined_criteria (mixin_delete_many Sample.match_cond)
       "__all__" Sample.object_id (Some "__all__") None (Some "") SampleMore.cells
     = (Ok {| filters := []; count := 0; success := false;
              error := Some "No deletion criteria provided" |},
        {| log := [LogRecord WARNING
                     "No deletion criteria provided (all are MAGIC_ALL)" None];
           store := store SampleMore.cells |})
  /\ (delete_by_combined_criteria (mixin_delete_many Sample.match_cond)
        "__all__" Sample.object_id (Some "not-an-id") (Some "u1") (Some "g1")
        SampleMore.cells).1
     = Ok {| filters := []; count := 0; success := false;
             error := Some "Invalid event_id format: not-an-id" |}
  /\ store (delete_by_combined_criteria (mixin_delete_many Sample.match_cond)
              "__all__" Sample.object_id (Some "not-an-id") (Some "u1") (Some "g1")
              SampleMore.cells).2
     = store SampleMore.cells.
Proof.
  assert (H1 : ignored "__all__" (Some "__all__")) by (right; right; reflexivity).
  assert (H2 : ignored "__all__" None) by (left; reflexivity).
  assert (H3 : ignored "__all__" (Some "")) by (right; left; reflexivity).
  assert (H4 : Sample.object_id "not-an-id" = Raise (OtherError "InvalidId"))
    by reflexivity.
  split; [by repeat split|]. split; [exact H4|]. split.
  - exact (proj1 (combined_criteria_refusals (mixin_delete_many Sample.match_cond)
                    "__all__" Sample.object_id (Some "__all__") None (Some "")
                    SampleMore.cells) H1 H2 H3).
  - rewrite (proj2 (combined_criteria_refusals (mixin_delete_many Sample.match_cond)
                      "__all__" Sample.object_id (Some "not-an-id") (Some "u1")
                      (Some "g1") SampleMore.cells)
               "not-an-id" (OtherError "InvalidId") eq_refl
               ltac:(discriminate) ltac:(discriminate) H4).
    split; reflexivity.
Defined.

Lemma build_filter_witness :
  build_filter "__all__" Sample.object_id (Some "__all__") (Some "u1") (Some "g1")
  = Ok ({[ "user_id" := BStr "u1"; "group_id" := BStr "g1" ]} : query,
        ["user_id"; "group_id"])
  /\ ({[ "user_id" := BStr "u1"; "group_id" := BStr "g1" ]} : query) !! "_id" = None.
Proof.
  assert (H : build_filter "__all__" Sample.object_id
                (Some "__all__") (Some "u1") (Some "g1")
              = Ok ({[ "user_id" := BStr "u1"; "group_id" := BStr "g1" ]} : query,
                    ["user_id"; "group_id"]))
    by (vm_compute; reflexivity).
  split; [exact H|].
  apply (proj1 (proj2 (proj2 (proj2 (proj2
           (build_filter_uses_given_criteria "__all__" Sample.object_id _ _ _ _ _ H)))))).
  right; right; reflexivity.
Defined.


Lemma combined_criteria_on_mixin_witness :
  (forall d, Sample.match_cond "deleted_at" BNull d = doc_live d)
  /\ build_filter "__all__" Sample.object_id None (Some "u1") (Some "g1")
     = Ok ({[ "user_id" := BStr "u1"; "group_id" := BStr "g1" ]} : query,
           ["user_id"; "group_id"])
  /\ ({[ "user_id" := BStr "u1"; "group_id" := BStr "g1" ]} : query) <> ∅
  /\ (delete_by_combined_criteria (mixin_delete_many Sample.match_cond)
        "__all__" Sample.object_id None (Some "u1") (Some "g1") SampleMore.cells).1
     = Ok {| filters := ["user_id"; "group_id"]; count := 1; success := true;
             error := None |}.
Proof.
  assert (Hb : build_filter "__all__" Sample.object_id None (Some "u1") (Some "g1")
               = Ok ({[ "user_id" := BStr "u1"; "group_id" := BStr "g1" ]} : query,
                     ["user_id"; "group_id"]))
    by (vm_compute; reflexivity).
  assert (Hne : ({[ "user_id" := BStr "u1"; "group_id" := BStr "g1" ]} : query) <> ∅).
  { apply (bool_decide_unpack _). vm_compute. reflexivity. }
  split; [exact SoftDeleteProofs.sample_match_deleted_at_null|].
  split; [exact Hb|]. split; [exact Hne|].
  rewrite (proj1 (combined_criteria_on_mixin Sample.match_cond "__all__"
                    Sample.object_id SoftDeleteProofs.sample_match_deleted_at_null
                    None (Some "u1") (Some "g1") _ _ SampleMore.cells Hb Hne)).
  vm_compute. reflexivity.
Defined.

End DeleteServiceExtra.
